(** * The manifest post-processor (post-processor/manifest/post-processor.go)

    A shallow embedding of [PostProcess], [lockFile], [Hcl2Manifest] and
    [setMapVal], followed by the properties of the manifest update protocol:
    the merge-or-truncate decision of the JSON manifest, the way the manifest
    file is loaded, the nested keys of the HCL2 variables manifest and the
    lock file.

    Conventions of the embedding.
    - The file system is a finite map from paths to regular files; a file has
      permission bits and contents.  Directories, ownership and the umask are
      not modelled: every path lives in one writable directory.  A write
      fails only when the file cannot be opened for writing: a failure after
      the file was truncated is not modelled, and a created file gets the
      permission bits asked for.
    - The process runs alone: nothing else touches the file system between
      two steps of one invocation.
    - [time.Sleep], [os.OpenFile] on the lock file and [log.Printf] are
      recorded in a trace, in program order.
    - A Go panic is an outcome of its own, [Panic]; deferred calls run before
      it leaves the function.
    - Functions of other packages (encoding/json, hcl, the hcl2shim of this
      repository, template interpolation, filepath) are parameters of the
      development, so every theorem holds whatever they compute. *)

From Stdlib Require Import ZArith String List Lia.
From Stdlib.Strings Require Import Byte.
From stdpp Require Import base gmap strings list fin_maps option.

Set Warnings "-register-all".
Local Open Scope Z_scope.

(** ** Go's [error] values *)

(** The errors of the system calls used by the post-processor. *)
Inductive Errno := ENOENT | EACCES | EEXIST.

(** Severity of an [hcl.Diagnostic]. *)
Inductive DiagnosticSeverity := DiagError | DiagWarning.

Record Diagnostic := {
  Severity : DiagnosticSeverity;
  Summary : string
}.

Definition Diagnostics := list Diagnostic.

(** [diags.HasErrors()] *)
Definition HasErrors (diags : Diagnostics) : bool :=
  existsb (fun d => match Severity d with DiagError => true | DiagWarning => false end) diags.

(** An [error] is what a system call reports ([*os.PathError]), what a
    library reports, or what [fmt.Errorf] builds from a format and its
    arguments. *)
Inductive error :=
| PathError (op : string) (path : string) (e : Errno)
| LibraryError (msg : string)
| Errorf (format : string) (args : list fmtArg)
with fmtArg :=
| ArgString (s : string)
| ArgError (e : error)
| ArgDiags (d : Diagnostics).

(** [os.IsNotExist(err)] *)
Definition IsNotExist (err : error) : bool :=
  match err with
  | PathError _ _ ENOENT => true
  | _ => false
  end.

(** ** The file system *)

Record File := {
  mode : Z;               (* permission bits, as in 0600 *)
  data : list byte
}.

(** Owner read and write bits of a mode: 0400 and 0200. *)
Definition canRead (f : File) : bool := Z.testbit (mode f) 8.
Definition canWrite (f : File) : bool := Z.testbit (mode f) 7.

(** What the lock coordinator does, in program order. *)
Inductive Event :=
| EvSleep (d : Z)                                   (* time.Sleep(d), d in nanoseconds *)
| EvOpenFile (name : string) (err : option error)   (* os.OpenFile and its result *)
| EvLog (format : string) (err : error).            (* log.Printf(format, err) *)

Record World := {
  fs : gmap string File;
  trace : list Event
}.

Definition setFs (w : World) (m : gmap string File) : World :=
  {| fs := m; trace := trace w |}.

Definition emit (ev : Event) (w : World) : World :=
  {| fs := fs w; trace := trace w ++ [ev] |}.

(** Flags of [os.OpenFile] (Linux values). *)
Definition O_RDWR : Z := 2.
Definition O_CREATE : Z := 64.
Definition O_EXCL : Z := 128.

Definition hasFlag (flag bit : Z) : bool := negb (Z.land flag bit =? 0).

(** [os.OpenFile(name, flag, perm)]: the handle is never used by the
    post-processor, so only the error and the effect on the file system
    are kept. *)
Definition os_OpenFile (name : string) (flag perm : Z) (w : World) : option error * World :=
  let '(err, m) :=
    match fs w !! name with
    | Some f =>
        if hasFlag flag O_CREATE && hasFlag flag O_EXCL
        then (Some (PathError "open" name EEXIST), fs w)
        else if (canRead f) && (negb (hasFlag flag O_RDWR) || canWrite f)
        then (None, fs w)
        else (Some (PathError "open" name EACCES), fs w)
    | None =>
        if hasFlag flag O_CREATE
        then (None, <[name := {| mode := perm; data := [] |}]> (fs w))
        else (Some (PathError "open" name ENOENT), fs w)
    end in
  (err, emit (EvOpenFile name err) (setFs w m)).

(** [os.Remove(name)] *)
Definition os_Remove (name : string) (w : World) : option error * World :=
  match fs w !! name with
  | Some _ => (None, setFs w (delete name (fs w)))
  | None => (Some (PathError "remove" name ENOENT), w)
  end.

(** [ioutil.ReadFile(filename)] *)
Definition ioutil_ReadFile (filename : string) (w : World) : list byte * option error :=
  match fs w !! filename with
  | Some f =>
      if canRead f then (data f, None)
      else ([], Some (PathError "open" filename EACCES))
  | None => ([], Some (PathError "open" filename ENOENT))
  end.

(** [ioutil.WriteFile(filename, data, perm)]: creates the file with [perm],
    or truncates an existing one and keeps its mode. *)
Definition ioutil_WriteFile (filename : string) (out : list byte) (perm : Z) (w : World)
  : option error * World :=
  match fs w !! filename with
  | Some f =>
      if canWrite f
      then (None, setFs w (<[filename := {| mode := mode f; data := out |}]> (fs w)))
      else (Some (PathError "open" filename EACCES), w)
  | None => (None, setFs w (<[filename := {| mode := perm; data := out |}]> (fs w)))
  end.

(** [os.Stat(name)], reduced to the size it reports. *)
Definition os_Stat_Size (name : string) (w : World) : Z + error :=
  match fs w !! name with
  | Some f => inl (Z.of_nat (length (data f)))
  | None => inr (PathError "stat" name ENOENT)
  end.

(** [time.Sleep(d)] *)
Definition time_Sleep (d : Z) (w : World) : World := emit (EvSleep d) w.

(** [log.Printf(format, err)] *)
Definition log_Printf (format : string) (err : error) (w : World) : World :=
  emit (EvLog format err) w.

(** The permission arguments 0600 and 0664, written in octal in the source. *)
Definition perm_0600 : Z := 6 * 64.
Definition perm_0664 : Z := 6 * 64 + 6 * 8 + 4.

(** [time.Millisecond], a [time.Duration] in nanoseconds. *)
Definition Millisecond : Z := 1000000.

(** ** lockFile *)

(** The loop of [lockFile]: [n] iterations are left and [i] is the loop
    counter.  A successful open leaves the loop ([break]). *)
Fixpoint lockFile_loop (n : nat) (i : Z) (lockFilename : string) (w : World) : World :=
  match n with
  | O => w
  | S n' =>
      let w := time_Sleep (i * 200 * Millisecond) w in
      let '(err, w) := os_OpenFile lockFilename (Z.lor (Z.lor O_RDWR O_CREATE) O_EXCL) perm_0600 w in
      match err with
      | None => w
      | Some e =>
          let w := log_Printf
            "Error locking manifest file for reading and writing. Will sleep and retry. %s" e w in
          lockFile_loop n' (i + 1) lockFilename w
      end
  end.

(** [lockFile(lockFilename)] returns the cleanup closure; the result of
    [os.Remove] is dropped there. *)
Definition lockFile (lockFilename : string) (w : World) : (World -> World) * World :=
  (fun w' => snd (os_Remove lockFilename w'), lockFile_loop 3 0 lockFilename w).

(** ** Outcomes *)

(** A Go call returns or panics. *)
Inductive Outcome (A : Type) :=
| Return (a : A)
| Panic (msg : string).
Arguments Return {A} a.
Arguments Panic {A} msg.

#[global] Instance Outcome_ret : MRet Outcome := fun A a => Return a.
#[global] Instance Outcome_bind : MBind Outcome := fun A B f o =>
  match o with
  | Return a => f a
  | Panic msg => Panic msg
  end.

(** ** Data of the post-processor *)

(** [Config], with the fields of the embedded [common.PackerConfig] that the
    post-processor reads: [PackerBuildName], [PackerBuilderType],
    [PackerBuildGroupName] and [PackerForce]. *)
Record Config := {
  PackerBuildName : string;
  PackerBuilderType : string;
  PackerBuildGroupName : string;
  PackerForce : bool;
  OutputPath : string;
  StripPath : bool;
  StripTime : bool;
  CustomData : gmap string string
}.

(** The assignment [p.config.CustomData[key] = ...] changes the receiver. *)
Definition setCustomData (c : Config) (m : gmap string string) : Config :=
  {| PackerBuildName := PackerBuildName c;
     PackerBuilderType := PackerBuilderType c;
     PackerBuildGroupName := PackerBuildGroupName c;
     PackerForce := PackerForce c;
     OutputPath := OutputPath c;
     StripPath := StripPath c;
     StripTime := StripTime c;
     CustomData := m |}.

(** Modelled from the spec: [ArtifactFile] is declared in artifact.go of the
    package, which is not among the sources read here.  It is the
    [{name, size}] of the build record; the field names are those
    [PostProcess] assigns. *)
Record ArtifactFile := {
  Name : string;
  Size : Z
}.

(** Modelled from the spec: [Artifact], declared in artifact.go as well, is
    the build record: builder type, build name, build time, files, artifact
    id, run identifier and custom data, under the field names [PostProcess]
    assigns.  [ArtifactCustomData] is its field [CustomData]. *)
Record Artifact := {
  BuildName : string;
  BuilderType : string;
  BuildTime : Z;
  ArtifactFiles : list ArtifactFile;
  ArtifactId : string;
  PackerRunUUID : string;
  ArtifactCustomData : gmap string string
}.

Record ManifestFile := {
  Builds : list Artifact;
  LastRunUUID : string
}.

(** [&ManifestFile{}] *)
Definition emptyManifestFile : ManifestFile :=
  {| Builds := []; LastRunUUID := EmptyString |}.

(** The process: its environment and its clock ([time.Now().Unix()]). *)
Record Process := {
  environ : gmap string string;
  now : Z
}.

(** [os.Getenv(key)] *)
Definition os_Getenv (env : Process) (key : string) : string :=
  default EmptyString (environ env !! key).

(** [strings.HasSuffix(s, suffix)] *)
Definition HasSuffix (s suffix : string) : bool :=
  (String.length suffix <=? String.length s)%nat
  && String.eqb (substring (String.length s - String.length suffix) (String.length suffix) s) suffix.

(** ** Values of type [interface{}] and [setMapVal] *)

(** The dynamic types that occur in a manifest of the HCL2 variant. *)
Inductive Value :=
| VNil
| VBool (b : bool)
| VInt (n : Z)
| VInt64 (n : Z)
| VFloat64 (bits : Z)
| VString (s : string)
| VSlice (l : list Value)
| VMap (m : gmap string Value).

(** The loop of [setMapVal] over [keys[:len(keys)-1]], then the assignment
    under the last key.  A Go map is a reference: the update made below
    [value] is seen through [target[key]], which the re-insertion of the
    updated child expresses.  A value that is found and is not a map makes
    the type assertion [value.(map[string]interface{})] panic. *)
Fixpoint setMapVal_loop (target toSet : gmap string Value) (keys : list string) (last : string)
  : Outcome (gmap string Value) :=
  match keys with
  | [] => Return (<[last := VMap toSet]> target)
  | key :: keys =>
      if decide (key = EmptyString) then setMapVal_loop target toSet keys last
      else
        match target !! key with
        | None =>
            value ← setMapVal_loop ∅ toSet keys last;
            Return (<[key := VMap value]> target)
        | Some (VMap value) =>
            value ← setMapVal_loop value toSet keys last;
            Return (<[key := VMap value]> target)
        | Some _ => Panic "interface conversion: interface {} is not map[string]interface {}"
        end
  end.

Definition setMapVal (target toSet : gmap string Value) (keys : list string)
  : Outcome (gmap string Value) :=
  match keys with
  | [] => Panic "slice bounds out of range"
  | _ => setMapVal_loop target toSet (removelast keys) (List.last keys EmptyString)
  end.

(** [v[k1][k2]...]: indexing through nested maps. *)
Fixpoint index (v : Value) (path : list string) : option Value :=
  match path with
  | [] => Some v
  | key :: path =>
      match v with
      | VMap m => match m !! key with Some v' => index v' path | None => None end
      | _ => None
      end
  end.

(** ** Other packages *)

(** An [hcl.Expression], by the one method that is called on it:
    [Value(nil)].  [V] is the type of the values of go-cty. *)
Record Expression (V : Type) := {
  Value_nil : V * Diagnostics
}.
Arguments Value_nil {V} _.

Record Attribute (V : Type) := {
  Expr : Expression V
}.
Arguments Expr {V} _.

(** An [hcl.File], by [file.Body.JustAttributes()]. *)
Record hcl_File (V : Type) := {
  JustAttributes : gmap string (Attribute V) * Diagnostics
}.
Arguments JustAttributes {V} _.

(** The functions of other packages that the post-processor calls.  They
    are left open: a theorem about the post-processor holds for every
    instance. *)
Class Packages := {
  (** [interpolate.Render(v, ctx)], by the data of the context *)
  interpolate_Render : string -> Value -> string + error;
  filepath_Base : string -> string;
  (** [json.Unmarshal(contents, manifestFile)] on a fresh [&ManifestFile{}],
      and [json.MarshalIndent(manifestFile, prefix, indent)] with the prefix
      and the indent of the call *)
  json_Unmarshal : list byte -> ManifestFile + error;
  json_MarshalIndent : ManifestFile -> list byte + error;
  (** the values of go-cty *)
  cty_Value : Type;
  (** the conversions of hcl2template/shim; [None] stands for a panic *)
  ConfigValueFromHCL2 : cty_Value -> option Value;
  HCL2ValueFromConfigValue : Value -> option cty_Value;
  (** [hclparse.NewParser().ParseHCL(src, filename)] *)
  hclparse_ParseHCL : list byte -> string -> hcl_File cty_Value * Diagnostics;
  (** hclwrite: whether a value has tokens ([SetAttributeValue] panics on
      one that has none), and the bytes of a body *)
  hclwrite_hasTokens : cty_Value -> bool;
  hclwrite_WriteTo : gmap string cty_Value -> list byte * option error
}.

(** The artifact being recorded: [packer.Artifact], by the methods called.
    [State] returns an [interface{}], [VNil] when there is none. *)
Record SourceArtifact := {
  Files : list string;
  Id : string;
  State : string -> Value
}.

(** What [PostProcess] returns: [(packer.Artifact, bool, bool, error)]. *)
Definition Result : Type := option SourceArtifact * bool * bool * option error.

(** [generatedData := source.State("generated_data")], made an empty map
    when it is nil: lines 82-86. *)
Definition generatedData (source : SourceArtifact) : Value :=
  match State source "generated_data" with
  | VNil => VMap ∅
  | generatedData => generatedData
  end.

(** [defer lockFile(lockFilename)()] and the statements after it: the lock
    is taken at once, and the closure it returned runs when the function
    leaves, by a return or by a panic. *)
Definition withLockFile {A : Type} (lockFilename : string) (body : World -> Outcome A * World)
    (w : World) : Outcome A * World :=
  let '(cleanup, w) := lockFile lockFilename w in
  let '(r, w) := body w in
  (r, cleanup w).

(** ** The post-processor *)

Section PostProcessor.

Context {pkgs : Packages}.

(** hclwrite: the body under construction is kept as the map from attribute
    names to the values set; the order of the attributes in the file
    follows Go's map iteration and is left open. *)
Definition SetAttributeValue (wBody : gmap string cty_Value) (name : string) (val : cty_Value)
  : Outcome (gmap string cty_Value) :=
  if hclwrite_hasTokens val then Return (<[name := val]> wBody)
  else Panic "cannot produce tokens for value".

(** *** createInterpolatedCustomData *)

Definition createInterpolatedCustomData (ctxData : Value) (customData : string)
  : string + error :=
  match interpolate_Render customData ctxData with
  | inr err => inr (Errorf "Error interpolating custom data: %s" [ArgError err])
  | inl interpolatedCmd => inl interpolatedCmd
  end.

(** The loop over [p.config.CustomData] at the start of [PostProcess].  Go
    leaves the order of the iteration open; it only decides which error is
    returned when several values fail. *)
Fixpoint interpolateCustomData (ctxData : Value) (entries : list (string * string))
    (customData : gmap string string) : gmap string string + error :=
  match entries with
  | [] => inl customData
  | (key, data) :: entries =>
      match createInterpolatedCustomData ctxData data with
      | inr err => inr err
      | inl interpolatedData =>
          interpolateCustomData ctxData entries (<[key := interpolatedData]> customData)
      end
  end.

(** *** Hcl2Manifest *)

(** The entry of the current build, lines 218-238. *)
Definition hcl2Entry (p : Config) (env : Process) (source : SourceArtifact)
    (aFiles : list ArtifactFile) : gmap string Value :=
  let entry : gmap string Value :=
    <["packer_run_uuid" := VString (os_Getenv env "PACKER_RUN_UUID")]>
      (<["artifact_id" := VString (Id source)]> ∅) in
  let entry :=
    if (0 <? size (CustomData p))%nat
    then <["custom_data" := VMap (VString <$> CustomData p)]> entry
    else entry in
  if (0 <? length aFiles)%nat
  then <["files" := VSlice (map (fun v =>
           VMap (<["size" := VInt64 (Size v)]> (<["name" := VString (Name v)]> ∅))) aFiles)]> entry
  else entry.

(** The manifest read from the attribute [manifest], lines 208-217. *)
Definition hcl2LoadManifest (attrs : gmap string (Attribute cty_Value))
  : Outcome (gmap string Value) :=
  match attrs !! "manifest" with
  | Some buildAttr =>
      let '(buildVal, diags) := Value_nil (Expr buildAttr) in
      if negb (HasErrors diags) then
        match ConfigValueFromHCL2 buildVal with
        | Some (VMap m) => Return m
        | Some _ => Panic "interface conversion: interface {} is not map[string]interface {}"
        | None => Panic "can't convert to config value"
        end
      else Return ∅
  | None => Return ∅
  end.

(** The loop that copies every attribute of the parsed file to the new
    body, lines 244-247. *)
Fixpoint hcl2CopyAttributes (attrs : list (string * Attribute cty_Value))
    (wBody : gmap string cty_Value) : Outcome (gmap string cty_Value) :=
  match attrs with
  | [] => Return wBody
  | (key, val) :: attrs =>
      let '(v, _) := Value_nil (Expr val) in
      wBody ← SetAttributeValue wBody key v;
      hcl2CopyAttributes attrs wBody
  end.

(** The body written by [Hcl2Manifest], lines 198-249 without the parsing. *)
Definition hcl2Body (p : Config) (env : Process) (source : SourceArtifact)
    (aFiles : list ArtifactFile) (file : hcl_File cty_Value)
  : Outcome (gmap string cty_Value) :=
  let buildName := PackerBuildGroupName p in
  let sourceName := PackerBuildName p in
  let sourceType := PackerBuilderType p in
  let '(attrs, _) := JustAttributes file in
  manifest ← hcl2LoadManifest attrs;
  let entry := hcl2Entry p env source aFiles in
  manifest ← setMapVal manifest entry [buildName; sourceType; sourceName];
  wBody ← hcl2CopyAttributes (map_to_list attrs) ∅;
  match HCL2ValueFromConfigValue (VMap manifest) with
  | Some v => SetAttributeValue wBody "manifest" v
  | None => Panic "can't convert to cty.Value"
  end.

Definition Hcl2Manifest (p : Config) (env : Process) (contents : list byte)
    (source : SourceArtifact) (aFiles : list ArtifactFile) (w : World)
  : Outcome Result * World :=
  let '(file, diags) := hclparse_ParseHCL contents (OutputPath p) in
  if HasErrors diags then
    let err := Errorf "Failed to parse output file %s: %s"
                 [ArgString (OutputPath p); ArgDiags diags] in
    (Return (Some source, true, true, Some err), w)
  else
    match hcl2Body p env source aFiles file with
    | Panic msg => (Panic msg, w)
    | Return wBody =>
        let '(out, err) := hclwrite_WriteTo wBody in
        match err with
        | Some err => (Return (Some source, true, true, Some err), w)
        | None =>
            let '(err, w) := ioutil_WriteFile (OutputPath p) out perm_0664 w in
            (Return (Some source, true, true, err), w)
        end
    end.

(** *** PostProcess *)

(** One element of [aFiles], lines 104-115. *)
Definition artifactFile (p : Config) (w : World) (name : string) : ArtifactFile :=
  {| Size := match os_Stat_Size name w with inl size => size | inr _ => 0 end;
     Name := if StripPath p then filepath_Base name else name |}.

(** The current artifact, lines 132-148. *)
Definition currentArtifact (p : Config) (env : Process) (source : SourceArtifact)
    (aFiles : list ArtifactFile) : Artifact :=
  {| ArtifactFiles := aFiles;
     ArtifactId := Id source;
     ArtifactCustomData := CustomData p;
     BuilderType := PackerBuilderType p;
     BuildName := PackerBuildName p;
     BuildTime := if StripTime p then 0 else now env;
     PackerRunUUID := os_Getenv env "PACKER_RUN_UUID" |}.

(** Parse the manifest file JSON, if we have one: lines 150-156. *)
Definition parseManifest (contents : list byte) : ManifestFile + error :=
  if (0 <? length contents)%nat then json_Unmarshal contents
  else inl emptyManifestFile.

(** Truncate or keep, then add the current artifact: lines 158-166. *)
Definition addArtifact (p : Config) (env : Process) (manifestFile : ManifestFile)
    (artifact : Artifact) : ManifestFile :=
  let manifestFile :=
    if PackerForce p
       && negb (String.eqb (os_Getenv env "PACKER_RUN_UUID") (LastRunUUID manifestFile))
    then emptyManifestFile
    else manifestFile in
  {| Builds := Builds manifestFile ++ [artifact];
     LastRunUUID := os_Getenv env "PACKER_RUN_UUID" |}.

(** Write JSON to disk and return: lines 168-179. *)
Definition writeManifest (p : Config) (source : SourceArtifact) (manifestFile : ManifestFile)
    (w : World) : Outcome Result * World :=
  match json_MarshalIndent manifestFile with
  | inl out =>
      let '(err, w) := ioutil_WriteFile (OutputPath p) out perm_0664 w in
      match err with
      | Some err =>
          (Return (Some source, true, true,
                   Some (Errorf "Unable to write %s: %s" [ArgString (OutputPath p); ArgError err])), w)
      | None => (Return (Some source, true, true, None), w)
      end
  | inr err =>
      (Return (Some source, true, true, Some (Errorf "Unable to marshal JSON %s" [ArgError err])), w)
  end.

(** What follows a successful read, lines 128-179. *)
Definition mergeWrite (p : Config) (env : Process) (source : SourceArtifact)
    (aFiles : list ArtifactFile) (contents : list byte) (w : World) : Outcome Result * World :=
  if HasSuffix (OutputPath p) ".pkrvars.hcl" then
    Hcl2Manifest p env contents source aFiles w
  else
    let artifact := currentArtifact p env source aFiles in
    match parseManifest contents with
    | inr err =>
        (Return (Some source, true, true,
                 Some (Errorf "Unable to parse content from %s: %s"
                         [ArgString (OutputPath p); ArgError err])), w)
    | inl manifestFile =>
        writeManifest p source (addArtifact p env manifestFile artifact) w
    end.

(** The part of [PostProcess] that runs while the lock is held, lines
    122-179: read the manifest, merge the current build, write it back. *)
Definition readMergeWrite (p : Config) (env : Process) (source : SourceArtifact)
    (aFiles : list ArtifactFile) (w : World) : Outcome Result * World :=
  let '(contents, err) := ioutil_ReadFile (OutputPath p) w in
  match err with
  | Some err =>
      if negb (IsNotExist err) then
        (Return (Some source, true, true,
                 Some (Errorf "Unable to open %s for reading: %s"
                         [ArgString (OutputPath p); ArgError err])), w)
      else mergeWrite p env source aFiles contents w
  | None => mergeWrite p env source aFiles contents w
  end.

Definition PostProcess (p : Config) (env : Process) (source : SourceArtifact) (w : World)
  : Outcome Result * World :=
  match interpolateCustomData (generatedData source) (map_to_list (CustomData p)) (CustomData p) with
  | inr err => (Return (None, false, false, Some err), w)
  | inl customData =>
      let p := setCustomData p customData in
      let aFiles := map (artifactFile p w) (Files source) in
      let lockFilename := OutputPath p +:+ ".lock" in
      withLockFile lockFilename (readMergeWrite p env source aFiles) w
  end.

End PostProcessor.

(** ** Notions used in the statements *)

(** The sleeps, attempts and log lines of an acquisition that fails three
    times on [name]. *)
Definition exhausted (name : string) : list Event :=
  let err := PathError "open" name EEXIST in
  let format := "Error locking manifest file for reading and writing. Will sleep and retry. %s" in
  [ EvSleep 0; EvOpenFile name (Some err); EvLog format err;
    EvSleep (200 * Millisecond); EvOpenFile name (Some err); EvLog format err;
    EvSleep (400 * Millisecond); EvOpenFile name (Some err); EvLog format err ].

(** The keys of [setMapVal] that are not skipped. *)
Definition nonEmpty (keys : list string) : list string :=
  filter (fun key => key ≠ EmptyString) keys.

(** [setMapVal] can descend along [keys]: every value it finds on the way is
    a map.  Where a key is missing the rest of the way is created. *)
Fixpoint descendable (target : gmap string Value) (keys : list string) : bool :=
  match keys with
  | [] => true
  | key :: keys =>
      match target !! key with
      | None => true
      | Some (VMap value) => descendable value keys
      | Some _ => false
      end
  end.

(** The value of an attribute of the parsed file, as [Hcl2Manifest] reads
    it: [val.Expr.Value(nil)] without its diagnostics. *)
Definition attributeValue {V : Type} (attr : Attribute V) : V :=
  fst (Value_nil (Expr attr)).

(** ** A small instance, to run the post-processor on concrete inputs *)

Module Sample.

(** Values of go-cty: unknown, or known and carried as the Go value they
    convert to. *)
Inductive cty :=
| Unknown
| Known (v : Value).

(** hcl2shim.UnknownVariableValue *)
Definition UnknownVariableValue : string := "74D93920-ED26-11E3-AC10-0800200C9A66".

Definition toConfig (v : cty) : option Value :=
  match v with
  | Unknown => Some (VString UnknownVariableValue)
  | Known v => Some v
  end.

Definition literal (v : Value) : Attribute cty :=
  {| Expr := {| Value_nil := (Known v, []) |} |}.

(** An expression that needs variables: [Value(nil)] reports an error. *)
Definition reference : Attribute cty :=
  {| Expr := {| Value_nil := (Unknown, [{| Severity := DiagError; Summary := "Variables not allowed" |}]) |} |}.

(** The parsed form of three files, told apart by their first byte:
    ["r"] for [region = "eu"], ["m"] for [manifest = "x"] and [region = "eu"],
    ["v"] for [manifest = var.m]; no bytes give the empty body and anything
    else is a syntax error. *)
Definition parse (src : list byte) (filename : string) : hcl_File cty * Diagnostics :=
  match src with
  | [] => ({| JustAttributes := (∅, []) |}, [])
  | "r"%byte :: _ =>
      ({| JustAttributes := (<["region" := literal (VString "eu")]> ∅, []) |}, [])
  | "m"%byte :: _ =>
      ({| JustAttributes :=
            (<["manifest" := literal (VString "x")]> (<["region" := literal (VString "eu")]> ∅), []) |},
       [])
  | "v"%byte :: _ =>
      ({| JustAttributes := (<["manifest" := reference]> ∅, []) |}, [])
  | _ => ({| JustAttributes := (∅, []) |},
          [{| Severity := DiagError; Summary := "Invalid character" |}])
  end.

(** A prior manifest with one build, written by run ["R1"]. *)
Definition prior : ManifestFile :=
  {| Builds := [ {| BuildName := "old"; BuilderType := "null"; BuildTime := 7;
                    ArtifactFiles := []; ArtifactId := "ami-000"; PackerRunUUID := "R1";
                    ArtifactCustomData := ∅ |} ];
     LastRunUUID := "R1" |}.

(** A toy codec: a file that starts with an opening brace decodes to
    [prior]; a document is encoded by its number of builds. *)
Definition unmarshal (contents : list byte) : ManifestFile + error :=
  match contents with
  | "{"%byte :: _ => inl prior
  | _ => inr (LibraryError "invalid character looking for beginning of value")
  end.

Definition marshal (m : ManifestFile) : list byte + error :=
  inl ("{"%byte :: repeat "b"%byte (length (Builds m))).

#[export] Instance packages : Packages := {|
  interpolate_Render := fun v _ => inl v;
  filepath_Base := fun name => name;
  json_Unmarshal := unmarshal;
  json_MarshalIndent := marshal;
  cty_Value := cty;
  ConfigValueFromHCL2 := toConfig;
  HCL2ValueFromConfigValue := fun v => Some (Known v);
  hclparse_ParseHCL := parse;
  hclwrite_hasTokens := fun v => match v with Unknown => false | Known _ => true end;
  hclwrite_WriteTo := fun body => (repeat "a"%byte (size body), None)
|}.

Definition config (output : string) (force : bool) : Config :=
  {| PackerBuildName := "name"; PackerBuilderType := "type"; PackerBuildGroupName := "group";
     PackerForce := force; OutputPath := output;
     StripPath := false; StripTime := true; CustomData := ∅ |}.

Definition process (runId : string) : Process :=
  {| environ := <["PACKER_RUN_UUID" := runId]> ∅; now := 1600000000 |}.

Definition source : SourceArtifact :=
  {| Files := ["a.txt"]; Id := "ami-123"; State := fun _ => VNil |}.

Definition file (bytes : list byte) : File := {| mode := perm_0664; data := bytes |}.

Definition world (files : gmap string File) : World := {| fs := files; trace := [] |}.

(** The record of the current build in these runs. *)
Definition record (runId : string) : Artifact :=
  {| BuildName := "name"; BuilderType := "type"; BuildTime := 0;
     ArtifactFiles := [ {| Name := "a.txt"; Size := 0 |} ]; ArtifactId := "ami-123";
     PackerRunUUID := runId; ArtifactCustomData := ∅ |}.

(** Worlds: a prior JSON manifest; one that cannot be read; one that is not
    JSON; an empty one; a lock file left behind; HCL2 manifests. *)
Definition priorWorld : World := world (<["m.json" := file ["{"%byte]]> ∅).
Definition unreadableWorld : World :=
  world (<["m.json" := {| mode := 0; data := ["{"%byte] |}]> ∅).
Definition garbageWorld : World := world (<["m.json" := file ["x"%byte]]> ∅).
Definition emptyFileWorld : World := world (<["m.json" := file []]> ∅).
Definition heldWorld : World :=
  world (<["m.json.lock" := file []]> (<["m.json" := file ["{"%byte]]> ∅)).
Definition regionWorld : World := world (<["m.pkrvars.hcl" := file ["r"%byte]]> ∅).
Definition stringManifestWorld : World := world (<["m.pkrvars.hcl" := file ["m"%byte]]> ∅).

(** An entry of the HCL2 manifest. *)
Definition entry : gmap string Value :=
  <["packer_run_uuid" := VString "R2"]> (<["artifact_id" := VString "ami-123"]> ∅).

End Sample.

(** ** Configure *)

Section Configure.

(** The raw configuration values, [config.Decode] on the configuration of a
    fresh post-processor, and [interpolate.Validate] of a template. *)
Context {Raw : Type}.
Variable config_Decode : list Raw -> Config + error.
Variable interpolate_Validate : string -> option error.

(** [Configure(raws...)]: the configuration it leaves in the post-processor,
    or the error it returns. *)
Definition Configure (raws : list Raw) : Config + error :=
  match config_Decode raws with
  | inr err => inr err
  | inl config =>
      let config :=
        if decide (OutputPath config = EmptyString) then
          {| PackerBuildName := PackerBuildName config;
             PackerBuilderType := PackerBuilderType config;
             PackerBuildGroupName := PackerBuildGroupName config;
             PackerForce := PackerForce config;
             OutputPath := "packer-manifest.json";
             StripPath := StripPath config;
             StripTime := StripTime config;
             CustomData := CustomData config |}
        else config in
      match interpolate_Validate (OutputPath config) with
      | Some err => inr (Errorf "Error parsing target template: %s" [ArgError err])
      | None => inl config
      end
  end.

End Configure.

(** ** More notions used in the statements *)

(** Two paths part ways: they have a common prefix and then differ at some
    key, so neither leads to a value inside the other's. *)
Fixpoint diverge (path other : list string) : bool :=
  match path, other with
  | key :: path, key' :: other =>
      if decide (key = key') then diverge path other else true
  | _, _ => false
  end.

(** The path under which [setMapVal] puts the entry. *)
Definition entryPath (keys : list string) : list string :=
  nonEmpty (removelast keys) ++ [List.last keys EmptyString].

(** An outcome that shows that the invocation ended before it called
    [ioutil.WriteFile]: a panic, or an error built by [fmt.Errorf] other than
    "Unable to write", the one [PostProcess] wraps the error of
    [ioutil.WriteFile] in ([Hcl2Manifest] returns that error bare). *)
Definition endsBeforeWrite (o : Outcome Result) : bool :=
  match o with
  | Panic _ => true
  | Return (_, _, _, Some (Errorf format _)) =>
      negb (String.eqb format "Unable to write %s: %s")
  | Return _ => false
  end.

(** More inputs for concrete runs. *)
Module Runs.

(** The first run of ["R1"]: it records the build of [Sample.prior]. *)
Definition firstConfig : Config :=
  {| PackerBuildName := "old"; PackerBuilderType := "null"; PackerBuildGroupName := "group";
     PackerForce := false; OutputPath := "m.json";
     StripPath := false; StripTime := false; CustomData := ∅ |}.

Definition firstProcess : Process :=
  {| environ := <["PACKER_RUN_UUID" := "R1"]> ∅; now := 7 |}.

Definition firstSource : SourceArtifact :=
  {| Files := []; Id := "ami-000"; State := fun _ => VNil |}.

(** A manifest that can be read and not written. *)
Definition readOnlyWorld : World :=
  Sample.world (<["m.json" := {| mode := 4 * 64; data := ["{"%byte] |}]> ∅).

(** An empty manifest that can be read and not written. *)
Definition readOnlyEmptyWorld : World :=
  Sample.world (<["m.json" := {| mode := 4 * 64; data := [] |}]> ∅).

(** A world with a file that is neither the manifest nor the lock file. *)
Definition otherFileWorld : World :=
  Sample.world (<["a.txt" := Sample.file ["a"%byte]]> (<["m.json" := Sample.file ["{"%byte]]> ∅)).

(** An HCL2 manifest with a syntax error. *)
Definition syntaxErrorWorld : World :=
  Sample.world (<["m.pkrvars.hcl" := Sample.file ["?"%byte]]> ∅).

(** Packages whose templates fail to render on the value ["{{"]. *)
Definition strictPackages : Packages := {|
  interpolate_Render := fun v _ =>
    if decide (v = "{{") then inr (LibraryError "unexpected unclosed action") else inl v;
  filepath_Base := fun name => name;
  json_Unmarshal := Sample.unmarshal;
  json_MarshalIndent := Sample.marshal;
  cty_Value := Sample.cty;
  ConfigValueFromHCL2 := Sample.toConfig;
  HCL2ValueFromConfigValue := fun v => Some (Sample.Known v);
  hclparse_ParseHCL := Sample.parse;
  hclwrite_hasTokens := fun v => match v with Sample.Unknown => false | Sample.Known _ => true end;
  hclwrite_WriteTo := fun body => (repeat "a"%byte (size body), None)
|}.

Definition badTemplateConfig : Config :=
  {| PackerBuildName := "name"; PackerBuilderType := "type"; PackerBuildGroupName := "group";
     PackerForce := false; OutputPath := "m.json";
     StripPath := false; StripTime := true;
     CustomData := <["owner" := "{{"]> (<["team" := "infra"]> ∅) |}.

Definition goodTemplateConfig : Config :=
  {| PackerBuildName := "name"; PackerBuilderType := "type"; PackerBuildGroupName := "group";
     PackerForce := false; OutputPath := "m.json";
     StripPath := false; StripTime := true;
     CustomData := <["owner" := "me"]> (<["team" := "infra"]> ∅) |}.

(** A decoder of raw values that are the output path alone. *)
Definition decodeOutput (raws : list string) : Config + error :=
  match raws with
  | [output] => inl (Sample.config output false)
  | _ => inr (LibraryError "unknown configuration key")
  end.

(** A mapping with the entry of another build of the same group and type,
    and the entry of a second build. *)
Definition otherBuild : gmap string Value :=
  <["group" := VMap (<["type" := VMap (<["other" := VMap Sample.entry]> ∅)]> ∅)]> ∅.

Definition secondEntry : gmap string Value :=
  <["packer_run_uuid" := VString "R3"]> (<["artifact_id" := VString "ami-456"]> ∅).

End Runs.

(** ** Outcomes in sequence *)

(** A sequence returns only when its first part does. *)
Lemma Outcome_bind_Return {A B : Type} (o : Outcome A) (f : A -> Outcome B) (b : B) :
  o ≫= f = Return b -> exists a, o = Return a /\ f a = Return b.
Proof. destruct o as [a|msg]; [eauto | discriminate]. Qed.

(** ** Properties of the lock file *)

Lemma string_length_app (s t : string) :
  String.length (s +:+ t) = (String.length s + String.length t)%nat.
Proof. induction s as [|c s IH]; simpl; [reflexivity | now rewrite IH]. Qed.

(** The lock file is never the manifest itself. *)
Lemma lockFilename_ne (path : string) : path +:+ ".lock" ≠ path.
Proof.
  intros Heq. apply (f_equal String.length) in Heq.
  rewrite string_length_app in Heq. simpl in Heq. lia.
Qed.

(** [os.OpenFile] with [O_RDWR|O_CREATE|O_EXCL]: it fails on an existing
    file and creates a missing one. *)
Lemma os_OpenFile_excl_exists (name : string) (perm : Z) (w : World) (f : File) :
  fs w !! name = Some f ->
  os_OpenFile name (Z.lor (Z.lor O_RDWR O_CREATE) O_EXCL) perm w
  = (Some (PathError "open" name EEXIST),
     emit (EvOpenFile name (Some (PathError "open" name EEXIST))) w).
Proof.
  intros Hf. unfold os_OpenFile. rewrite Hf. cbn. destruct w; reflexivity.
Qed.

Lemma os_OpenFile_excl_missing (name : string) (perm : Z) (w : World) :
  fs w !! name = None ->
  os_OpenFile name (Z.lor (Z.lor O_RDWR O_CREATE) O_EXCL) perm w
  = (None, emit (EvOpenFile name None)
             (setFs w (<[name := {| mode := perm; data := [] |}]> (fs w)))).
Proof. intros Hf. unfold os_OpenFile. rewrite Hf. reflexivity. Qed.

(** When the lock file exists, the three attempts fail and leave the files
    as they are. *)
Lemma lockFile_loop_held (name : string) (w : World) (f : File) :
  fs w !! name = Some f ->
  lockFile_loop 3 0 name w = {| fs := fs w; trace := trace w ++ exhausted name |}.
Proof.
  intros Hf. unfold exhausted. cbn [lockFile_loop].
  rewrite (os_OpenFile_excl_exists _ _ _ f) by exact Hf.
  rewrite (os_OpenFile_excl_exists _ _ _ f) by exact Hf.
  rewrite (os_OpenFile_excl_exists _ _ _ f) by exact Hf.
  unfold log_Printf, time_Sleep, emit. cbn. rewrite <- !app_assoc. reflexivity.
Qed.

(** When it does not, the first attempt creates it. *)
Lemma lockFile_loop_free (name : string) (w : World) :
  fs w !! name = None ->
  lockFile_loop 3 0 name w
  = {| fs := <[name := {| mode := perm_0600; data := [] |}]> (fs w);
       trace := trace w ++ [EvSleep 0; EvOpenFile name None] |}.
Proof.
  intros Hf. cbn [lockFile_loop].
  rewrite os_OpenFile_excl_missing by exact Hf.
  unfold time_Sleep, emit, setFs. cbn. rewrite <- !app_assoc. reflexivity.
Qed.

(** Acquisition touches no other file. *)
Lemma lockFile_loop_lookup_ne (name path : string) (w : World) :
  name ≠ path -> fs (lockFile_loop 3 0 name w) !! path = fs w !! path.
Proof.
  intros Hne. destruct (fs w !! name) as [f|] eqn:Hf.
  - rewrite (lockFile_loop_held _ _ _ Hf). reflexivity.
  - rewrite (lockFile_loop_free _ _ Hf). cbn. now rewrite lookup_insert_ne.
Qed.

(** After the cleanup the lock file is gone, and no other file has changed. *)
Lemma cleanup_lookup_eq (name : string) (w : World) :
  fs (snd (os_Remove name w)) !! name = None.
Proof.
  unfold os_Remove. destruct (fs w !! name) eqn:Hf; cbn; [apply lookup_delete_eq | exact Hf].
Qed.

Lemma cleanup_lookup_ne (name path : string) (w : World) :
  name ≠ path -> fs (snd (os_Remove name w)) !! path = fs w !! path.
Proof.
  intros Hne. unfold os_Remove. destruct (fs w !! name); cbn; [|reflexivity].
  now rewrite lookup_delete_ne.
Qed.

(** Removal, as a map operation. *)
Lemma os_Remove_world (name : string) (w : World) :
  snd (os_Remove name w) = setFs w (delete name (fs w)).
Proof.
  unfold os_Remove. destruct (fs w !! name) eqn:Hf; cbn; [reflexivity|].
  rewrite delete_id by exact Hf. destruct w; reflexivity.
Qed.

Section LockFile.

Context {pkgs : Packages}.

(** The statements under the lock only look at the files: the trace goes
    through them untouched. *)
Lemma readMergeWrite_trace (p : Config) (env : Process) (source : SourceArtifact)
    (aFiles : list ArtifactFile) (w : World) (t : list Event) :
  readMergeWrite p env source aFiles {| fs := fs w; trace := t |}
  = let '(r, w') := readMergeWrite p env source aFiles w in
    (r, {| fs := fs w'; trace := t |}).
Proof.
  unfold readMergeWrite, mergeWrite, Hcl2Manifest, writeManifest,
    ioutil_ReadFile, ioutil_WriteFile, setFs.
  cbn [fs trace].
  repeat (case_match; simplify_eq/=); reflexivity.
Qed.

(** C8. When the lock file exists at the start and nobody removes it, the
    acquisition makes three attempts, after sleeps of 0, 200 and 400
    milliseconds, and logs each failure; the invocation then reads, merges
    and writes the manifest as it does on the files it found, returns what
    that sequence returns, and removes the lock file. *)
Theorem lock_exhaustion_proceeds (p : Config) (env : Process) (source : SourceArtifact)
    (w : World) (customData : gmap string string) (held : File) :
  interpolateCustomData (generatedData source) (map_to_list (CustomData p)) (CustomData p)
    = inl customData ->
  fs w !! (OutputPath p +:+ ".lock") = Some held ->
  let p' := setCustomData p customData in
  let aFiles := map (artifactFile p' w) (Files source) in
  let lockFilename := OutputPath p +:+ ".lock" in
  snd (lockFile lockFilename w) = {| fs := fs w; trace := trace w ++ exhausted lockFilename |}
  /\ PostProcess p env source w
     = (fst (readMergeWrite p' env source aFiles w),
        {| fs := delete lockFilename (fs (snd (readMergeWrite p' env source aFiles w)));
           trace := trace w ++ exhausted lockFilename |}).
Proof.
  intros Hi Hheld p' aFiles lockFilename.
  assert (Hlock : snd (lockFile lockFilename w)
                  = {| fs := fs w; trace := trace w ++ exhausted lockFilename |})
    by apply (lockFile_loop_held _ _ _ Hheld).
  split; [exact Hlock|].
  unfold PostProcess. rewrite Hi. fold p'. fold aFiles.
  change (OutputPath p') with (OutputPath p). fold lockFilename.
  unfold withLockFile, lockFile in *. cbn [snd] in Hlock. rewrite Hlock.
  rewrite readMergeWrite_trace.
  destruct (readMergeWrite p' env source aFiles w) as [r w'].
  rewrite os_Remove_world. reflexivity.
Qed.

(** C9. The closure returned by [lockFile] removes the lock file, whatever
    the acquisition did and whatever happened since: the lock file does not
    exist after it has run.  [PostProcess] defers it: once the custom data
    are interpolated, every way out of the invocation, a return or a panic,
    leaves no lock file. *)
Theorem release_always :
  (forall (name : string) (w w' : World), fs (fst (lockFile name w) w') !! name = None)
  /\ (forall (A : Type) (name : string) (body : World -> Outcome A * World) (w : World),
        fs (snd (withLockFile name body w)) !! name = None)
  /\ (forall (p : Config) (env : Process) (source : SourceArtifact) (w : World),
        (exists err,
           interpolateCustomData (generatedData source) (map_to_list (CustomData p))
             (CustomData p) = inr err)
        \/ fs (snd (PostProcess p env source w)) !! (OutputPath p +:+ ".lock") = None).
Proof.
  assert (Hwith : forall (A : Type) (name : string) (body : World -> Outcome A * World)
                    (w : World), fs (snd (withLockFile name body w)) !! name = None).
  { intros A name body w. unfold withLockFile, lockFile.
    destruct (body _) as [r w2]. apply cleanup_lookup_eq. }
  split; [|split; [exact Hwith|]].
  - intros name w w'. apply cleanup_lookup_eq.
  - intros p env source w. unfold PostProcess.
    destruct (interpolateCustomData _ _ _) as [customData|err]; [right|left; eauto].
    apply Hwith.
Qed.

End LockFile.

(** ** Properties of the JSON manifest *)

Section JsonManifest.

Context {pkgs : Packages}.

Lemma ioutil_ReadFile_ext (path : string) (w1 w2 : World) :
  fs w1 !! path = fs w2 !! path -> ioutil_ReadFile path w1 = ioutil_ReadFile path w2.
Proof. intros Heq. unfold ioutil_ReadFile. now rewrite Heq. Qed.

(** A write that succeeds leaves the bytes written in the file. *)
Lemma ioutil_WriteFile_ok (path : string) (out : list byte) (perm : Z) (w w' : World) :
  ioutil_WriteFile path out perm w = (None, w') ->
  exists m, fs w' !! path = Some {| mode := m; data := out |}.
Proof.
  unfold ioutil_WriteFile. intros Hw.
  destruct (fs w !! path) as [f|]; [destruct (canWrite f); [|discriminate]|];
    injection Hw as <-; eexists; apply lookup_insert_eq.
Qed.

(** Once the custom data are interpolated, the manifest is read under the
    lock as it was before the lock was taken. *)
Lemma PostProcess_read (p : Config) (env : Process) (source : SourceArtifact) (w : World)
    (customData : gmap string string) :
  interpolateCustomData (generatedData source) (map_to_list (CustomData p)) (CustomData p)
    = inl customData ->
  let p' := setCustomData p customData in
  let aFiles := map (artifactFile p' w) (Files source) in
  PostProcess p env source w
  = withLockFile (OutputPath p +:+ ".lock")
      (fun w1 =>
         match ioutil_ReadFile (OutputPath p) w with
         | (contents, Some err) =>
             if negb (IsNotExist err) then
               (Return (Some source, true, true,
                        Some (Errorf "Unable to open %s for reading: %s"
                                [ArgString (OutputPath p); ArgError err])), w1)
             else mergeWrite p' env source aFiles contents w1
         | (contents, None) => mergeWrite p' env source aFiles contents w1
         end) w.
Proof.
  intros Hi p' aFiles. unfold PostProcess. rewrite Hi. fold p'. fold aFiles.
  change (OutputPath p') with (OutputPath p).
  unfold withLockFile, lockFile, readMergeWrite.
  change (OutputPath p') with (OutputPath p).
  rewrite (ioutil_ReadFile_ext (OutputPath p) _ w)
    by (apply lockFile_loop_lookup_ne, lockFilename_ne).
  destruct (ioutil_ReadFile (OutputPath p) w) as [contents [err|]]; reflexivity.
Qed.

(** The JSON variant, when the manifest is read and parsed: the invocation
    is the writing of the merged document, under the lock. *)
Lemma PostProcess_json (p : Config) (env : Process) (source : SourceArtifact) (w : World)
    (customData : gmap string string) (contents : list byte) (err : option error)
    (doc : ManifestFile) :
  interpolateCustomData (generatedData source) (map_to_list (CustomData p)) (CustomData p)
    = inl customData ->
  HasSuffix (OutputPath p) ".pkrvars.hcl" = false ->
  ioutil_ReadFile (OutputPath p) w = (contents, err) ->
  (forall e, err = Some e -> IsNotExist e = true) ->
  parseManifest contents = inl doc ->
  let p' := setCustomData p customData in
  let artifact := currentArtifact p' env source (map (artifactFile p' w) (Files source)) in
  PostProcess p env source w
  = withLockFile (OutputPath p +:+ ".lock")
      (writeManifest p' source (addArtifact p' env doc artifact)) w.
Proof.
  intros Hi Hs Hr He Hp p' artifact.
  rewrite (PostProcess_read _ _ _ _ _ Hi). rewrite Hr.
  unfold withLockFile. destruct (lockFile _ w) as [cleanup w1].
  unfold mergeWrite. change (OutputPath (setCustomData p customData)) with (OutputPath p).
  rewrite Hs, Hp.
  destruct err as [e|]; [rewrite (He e eq_refl)|]; reflexivity.
Qed.

(** The merge of the current build into the empty document. *)
Lemma addArtifact_empty (p : Config) (env : Process) (artifact : Artifact) :
  addArtifact p env emptyManifestFile artifact
  = {| Builds := [artifact]; LastRunUUID := os_Getenv env "PACKER_RUN_UUID" |}.
Proof. unfold addArtifact. destruct (_ && _); reflexivity. Qed.

(** A missing file and an empty one are read as no bytes, without a read
    error that stops the invocation. *)
Lemma ioutil_ReadFile_missing (path : string) (w : World) :
  fs w !! path = None ->
  ioutil_ReadFile path w = ([], Some (PathError "open" path ENOENT)).
Proof. intros Hf. unfold ioutil_ReadFile. now rewrite Hf. Qed.

Lemma ioutil_ReadFile_readable (path : string) (w : World) (f : File) :
  fs w !! path = Some f -> canRead f = true -> ioutil_ReadFile path w = (data f, None).
Proof. intros Hf Hr. unfold ioutil_ReadFile. now rewrite Hf, Hr. Qed.

(** The sizes recorded for the artifact files do not tell an empty file from
    a missing one. *)
Lemma artifactFile_delete_empty (p : Config) (w : World) (path : string) (f : File)
    (name : string) :
  fs w !! path = Some f -> data f = [] ->
  artifactFile p (setFs w (delete path (fs w))) name = artifactFile p w name.
Proof.
  intros Hf Hd. unfold artifactFile, os_Stat_Size. cbn.
  destruct (decide (path = name)) as [<-|Hne].
  - rewrite lookup_delete_eq, Hf, Hd. reflexivity.
  - rewrite lookup_delete_ne by exact Hne. reflexivity.
Qed.

(** C1. Force-reset law: when the manifest that is read and parsed has a
    last run identifier other than the one of this run and the force flag is
    set, the merge drops every prior build: the document that the invocation
    writes under the lock holds exactly the record of the current build, and
    its last run identifier is the one of this run. *)
Theorem force_reset_law (p : Config) (env : Process) (source : SourceArtifact) (w : World)
    (customData : gmap string string) (contents : list byte) (err : option error)
    (doc : ManifestFile) :
  interpolateCustomData (generatedData source) (map_to_list (CustomData p)) (CustomData p)
    = inl customData ->
  HasSuffix (OutputPath p) ".pkrvars.hcl" = false ->
  ioutil_ReadFile (OutputPath p) w = (contents, err) ->
  (forall e, err = Some e -> IsNotExist e = true) ->
  parseManifest contents = inl doc ->
  PackerForce p = true ->
  os_Getenv env "PACKER_RUN_UUID" ≠ LastRunUUID doc ->
  let p' := setCustomData p customData in
  let artifact := currentArtifact p' env source (map (artifactFile p' w) (Files source)) in
  let merged := {| Builds := [artifact]; LastRunUUID := os_Getenv env "PACKER_RUN_UUID" |} in
  addArtifact p' env doc artifact = merged
  /\ PostProcess p env source w
     = withLockFile (OutputPath p +:+ ".lock") (writeManifest p' source merged) w.
Proof.
  intros Hi Hs Hr He Hp Hforce Hrun p' artifact merged.
  assert (Hm : addArtifact p' env doc artifact = merged).
  { unfold addArtifact. change (PackerForce p') with (PackerForce p). rewrite Hforce.
    apply String.eqb_neq in Hrun. rewrite Hrun. reflexivity. }
  split; [exact Hm|].
  rewrite (PostProcess_json _ _ _ _ _ _ _ _ Hi Hs Hr He Hp). fold p'. fold artifact.
  now rewrite Hm.
Qed.

(** C2. No-truncation law: when the force flag is not set, or the run
    identifier is the last one of the manifest that is read and parsed, the
    document that the invocation writes under the lock holds the prior
    builds, unchanged and in their order, followed by the record of the
    current build. *)
Theorem no_truncation_law (p : Config) (env : Process) (source : SourceArtifact) (w : World)
    (customData : gmap string string) (contents : list byte) (err : option error)
    (doc : ManifestFile) :
  interpolateCustomData (generatedData source) (map_to_list (CustomData p)) (CustomData p)
    = inl customData ->
  HasSuffix (OutputPath p) ".pkrvars.hcl" = false ->
  ioutil_ReadFile (OutputPath p) w = (contents, err) ->
  (forall e, err = Some e -> IsNotExist e = true) ->
  parseManifest contents = inl doc ->
  PackerForce p = false \/ os_Getenv env "PACKER_RUN_UUID" = LastRunUUID doc ->
  let p' := setCustomData p customData in
  let artifact := currentArtifact p' env source (map (artifactFile p' w) (Files source)) in
  let merged :=
    {| Builds := Builds doc ++ [artifact]; LastRunUUID := os_Getenv env "PACKER_RUN_UUID" |} in
  addArtifact p' env doc artifact = merged
  /\ PostProcess p env source w
     = withLockFile (OutputPath p +:+ ".lock") (writeManifest p' source merged) w.
Proof.
  intros Hi Hs Hr He Hp Hkeep p' artifact merged.
  assert (Hm : addArtifact p' env doc artifact = merged).
  { unfold addArtifact. change (PackerForce p') with (PackerForce p).
    destruct Hkeep as [Hforce|Hrun].
    - rewrite Hforce. reflexivity.
    - apply String.eqb_eq in Hrun. rewrite Hrun, andb_false_r. reflexivity. }
  split; [exact Hm|].
  rewrite (PostProcess_json _ _ _ _ _ _ _ _ Hi Hs Hr He Hp). fold p'. fold artifact.
  now rewrite Hm.
Qed.

(** C3. Every invocation of the JSON variant that returns without an error
    has written the manifest: the bytes of the manifest file are the JSON of
    a document whose last run identifier is the run identifier of the
    invocation, whatever the force flag and whether or not the prior builds
    were dropped. *)
Theorem last_run_uuid_written (p : Config) (env : Process) (source : SourceArtifact)
    (w w' : World) (a : option SourceArtifact) (keep forceOverride : bool) :
  HasSuffix (OutputPath p) ".pkrvars.hcl" = false ->
  PostProcess p env source w = (Return (a, keep, forceOverride, None), w') ->
  exists (written : ManifestFile) (out : list byte),
    LastRunUUID written = os_Getenv env "PACKER_RUN_UUID"
    /\ json_MarshalIndent written = inl out
    /\ data <$> (fs w' !! OutputPath p) = Some out.
Proof.
  intros Hs Hpp.
  destruct (interpolateCustomData (generatedData source) (map_to_list (CustomData p))
              (CustomData p)) as [customData|e] eqn:Hi.
  2:{ unfold PostProcess in Hpp. rewrite Hi in Hpp. discriminate. }
  rewrite (PostProcess_read _ _ _ _ _ Hi) in Hpp.
  unfold withLockFile, lockFile in Hpp.
  set (p' := setCustomData p customData) in *.
  set (aFiles := map (artifactFile p' w) (Files source)) in *.
  set (w1 := lockFile_loop 3 0 (OutputPath p +:+ ".lock") w) in *.
  assert (Hmw : forall contents,
    (let '(r, w2) := mergeWrite p' env source aFiles contents w1 in
     (r, snd (os_Remove (OutputPath p +:+ ".lock") w2)))
      = (Return (a, keep, forceOverride, None), w') ->
    exists (written : ManifestFile) (out : list byte),
      LastRunUUID written = os_Getenv env "PACKER_RUN_UUID"
      /\ json_MarshalIndent written = inl out
      /\ data <$> (fs w' !! OutputPath p) = Some out).
  { intros contents Hm. unfold mergeWrite in Hm.
    change (OutputPath p') with (OutputPath p) in Hm. rewrite Hs in Hm.
    destruct (parseManifest contents) as [doc|e]; [|discriminate].
    unfold writeManifest in Hm. change (OutputPath p') with (OutputPath p) in Hm.
    destruct (json_MarshalIndent _) as [out|e] eqn:Hj; [|discriminate].
    destruct (ioutil_WriteFile _ out _ w1) as [[e|] w2] eqn:Hw; [discriminate|].
    injection Hm as _ _ _ <-.
    eexists _, out. split; [|split; [exact Hj|]]; [reflexivity|].
    rewrite cleanup_lookup_ne by apply lockFilename_ne.
    destruct (ioutil_WriteFile_ok _ _ _ _ _ Hw) as [m ->]. reflexivity. }
  destruct (ioutil_ReadFile (OutputPath p) w) as [contents [e|]].
  - destruct (negb (IsNotExist e)); [discriminate|]. exact (Hmw _ Hpp).
  - exact (Hmw _ Hpp).
Qed.

(** C4. How the JSON variant loads the manifest.  When the file does not
    exist, the empty document is the one merged and written, under the lock.
    When the file exists and cannot be read, the invocation returns the
    error "Unable to open ... for reading".  When the file can be read, has
    bytes and [json.Unmarshal] rejects them, the invocation returns the
    error "Unable to parse content from ...". *)
Theorem load_error_taxonomy (p : Config) (env : Process) (source : SourceArtifact) (w : World)
    (customData : gmap string string) :
  interpolateCustomData (generatedData source) (map_to_list (CustomData p)) (CustomData p)
    = inl customData ->
  HasSuffix (OutputPath p) ".pkrvars.hcl" = false ->
  let p' := setCustomData p customData in
  let artifact := currentArtifact p' env source (map (artifactFile p' w) (Files source)) in
  (fs w !! OutputPath p = None ->
     parseManifest (fst (ioutil_ReadFile (OutputPath p) w)) = inl emptyManifestFile
     /\ PostProcess p env source w
        = withLockFile (OutputPath p +:+ ".lock")
            (writeManifest p' source (addArtifact p' env emptyManifestFile artifact)) w)
  /\ (forall f, fs w !! OutputPath p = Some f -> canRead f = false ->
        fst (PostProcess p env source w)
        = Return (Some source, true, true,
                  Some (Errorf "Unable to open %s for reading: %s"
                          [ArgString (OutputPath p);
                           ArgError (PathError "open" (OutputPath p) EACCES)])))
  /\ (forall f e, fs w !! OutputPath p = Some f -> canRead f = true -> data f ≠ [] ->
        json_Unmarshal (data f) = inr e ->
        fst (PostProcess p env source w)
        = Return (Some source, true, true,
                  Some (Errorf "Unable to parse content from %s: %s"
                          [ArgString (OutputPath p); ArgError e]))).
Proof.
  intros Hi Hs p' artifact. split; [|split].
  - intros Hf. rewrite (ioutil_ReadFile_missing _ _ Hf). split; [reflexivity|].
    apply (PostProcess_json _ _ _ _ _ _ _ _ Hi Hs (ioutil_ReadFile_missing _ _ Hf));
      [|reflexivity].
    intros e [= <-]. reflexivity.
  - intros f Hf Hr. rewrite (PostProcess_read _ _ _ _ _ Hi).
    unfold ioutil_ReadFile. rewrite Hf, Hr.
    unfold withLockFile, lockFile. reflexivity.
  - intros f e Hf Hr Hd Hu. rewrite (PostProcess_read _ _ _ _ _ Hi).
    rewrite (ioutil_ReadFile_readable _ _ _ Hf Hr).
    unfold withLockFile, lockFile, mergeWrite, parseManifest.
    change (OutputPath (setCustomData p customData)) with (OutputPath p). rewrite Hs.
    destruct (data f) as [|b bs]; [congruence|]. cbn [length Nat.ltb Nat.leb].
    rewrite Hu. reflexivity.
Qed.

(** C10, as the code has it. A manifest file that exists, can be read and
    has no bytes is loaded as a missing one is: no parse error, and the document written
    under the lock holds the record of the current build alone, the same
    document in both cases.  When the empty file can also be written, the
    caller gets the same result in both cases. *)
Theorem empty_file_as_absent (p : Config) (env : Process) (source : SourceArtifact) (w : World)
    (customData : gmap string string) (f : File) :
  interpolateCustomData (generatedData source) (map_to_list (CustomData p)) (CustomData p)
    = inl customData ->
  HasSuffix (OutputPath p) ".pkrvars.hcl" = false ->
  fs w !! OutputPath p = Some f -> canRead f = true -> data f = [] ->
  let absent := setFs w (delete (OutputPath p) (fs w)) in
  let p' := setCustomData p customData in
  let artifact := currentArtifact p' env source (map (artifactFile p' w) (Files source)) in
  let merged := {| Builds := [artifact]; LastRunUUID := os_Getenv env "PACKER_RUN_UUID" |} in
  parseManifest (fst (ioutil_ReadFile (OutputPath p) w))
    = parseManifest (fst (ioutil_ReadFile (OutputPath p) absent))
  /\ PostProcess p env source w
     = withLockFile (OutputPath p +:+ ".lock") (writeManifest p' source merged) w
  /\ PostProcess p env source absent
     = withLockFile (OutputPath p +:+ ".lock") (writeManifest p' source merged) absent
  /\ (canWrite f = true ->
      fst (PostProcess p env source w) = fst (PostProcess p env source absent)).
Proof.
  intros Hi Hs Hf Hr Hd absent p' artifact merged.
  assert (Ha : fs absent !! OutputPath p = None) by apply lookup_delete_eq.
  assert (Hw : PostProcess p env source w
     = withLockFile (OutputPath p +:+ ".lock") (writeManifest p' source merged) w).
  { unfold merged. rewrite <- (addArtifact_empty p').
    apply (PostProcess_json _ _ _ _ _ _ _ _ Hi Hs (ioutil_ReadFile_readable _ _ _ Hf Hr));
      [discriminate|].
    rewrite Hd. reflexivity. }
  assert (Hw0 : PostProcess p env source absent
     = withLockFile (OutputPath p +:+ ".lock") (writeManifest p' source merged) absent).
  { unfold merged, artifact. rewrite <- (addArtifact_empty p').
    rewrite <- (map_ext _ _
      (fun name => artifactFile_delete_empty p' w (OutputPath p) f name Hf Hd)).
    apply (PostProcess_json _ _ _ _ _ _ _ _ Hi Hs (ioutil_ReadFile_missing _ _ Ha));
      [|reflexivity].
    intros e [= <-]. reflexivity. }
  split; [|split; [exact Hw|split; [exact Hw0|]]].
  - rewrite (ioutil_ReadFile_readable _ _ _ Hf Hr), (ioutil_ReadFile_missing _ _ Ha), Hd.
    reflexivity.
  - intros Hcw. rewrite Hw, Hw0. unfold withLockFile, lockFile, writeManifest.
    change (OutputPath p') with (OutputPath p).
    destruct (json_MarshalIndent merged) as [out|e]; [|reflexivity].
    unfold ioutil_WriteFile.
    rewrite !lockFile_loop_lookup_ne by apply lockFilename_ne.
    rewrite Hf, Hcw, Ha. reflexivity.
Qed.

End JsonManifest.

(** ** Properties of [setMapVal] *)

Lemma descendable_empty (keys : list string) : descendable ∅ keys = true.
Proof. destruct keys as [|key keys]; [reflexivity|]. cbn. now rewrite lookup_empty. Qed.

(** Along keys it can descend, the loop of [setMapVal] returns, and the value
    is found under the keys that are not empty, followed by the last key. *)
Lemma setMapVal_loop_index (keys : list string) :
  forall (target toSet : gmap string Value) (last : string),
    descendable target (nonEmpty keys) = true ->
    exists target',
      setMapVal_loop target toSet keys last = Return target'
      /\ index (VMap target') (nonEmpty keys ++ [last]) = Some (VMap toSet).
Proof.
  induction keys as [|key keys IH]; intros target toSet last Hd.
  - eexists. split; [reflexivity|]. cbn. now rewrite lookup_insert_eq.
  - cbn [setMapVal_loop]. unfold nonEmpty in *. rewrite filter_cons in *.
    destruct (decide (key = EmptyString)) as [->|Hne].
    + rewrite decide_False in * by (intros Hk; now apply Hk). now apply IH.
    + rewrite decide_True in * by exact Hne. cbn [descendable] in Hd.
      destruct (target !! key) as [v|] eqn:Hk.
      * destruct v as [| | | | | | |value]; try discriminate.
        destruct (IH value toSet last Hd) as (value' & -> & Hindex).
        eexists. split; [reflexivity|]. cbn. now rewrite lookup_insert_eq.
      * destruct (IH ∅ toSet last (descendable_empty _)) as (value' & -> & Hindex).
        eexists. split; [reflexivity|]. cbn. now rewrite lookup_insert_eq.
Qed.

(** Where a value on the way down is not a map, the type assertion of
    [setMapVal] panics. *)
Lemma setMapVal_loop_blocked (keys : list string) :
  forall (target toSet : gmap string Value) (last : string),
    descendable target (nonEmpty keys) = false ->
    exists msg, setMapVal_loop target toSet keys last = Panic msg.
Proof.
  induction keys as [|key keys IH]; intros target toSet last Hd; [discriminate|].
  cbn [setMapVal_loop]. unfold nonEmpty in *. rewrite filter_cons in Hd.
  destruct (decide (key = EmptyString)) as [->|Hne].
  - rewrite decide_False in Hd by (intros Hk; now apply Hk). now apply IH.
  - rewrite decide_True in Hd by exact Hne. cbn [descendable] in Hd.
    destruct (target !! key) as [v|] eqn:Hk; [|discriminate].
    destruct v as [| | | | | | |value]; try (eexists; reflexivity).
    destruct (IH value toSet last Hd) as [msg ->]. eexists. reflexivity.
Qed.

(** C5, as the code has it. [setMapVal] with the keys (group name, builder
    type, build name) skips the group name and the builder type when they
    are empty, and always uses the build name as the last key, empty or not:
    when every value found on the way down is a map, it returns, and the
    entry is the value under the non-empty ones of the first two keys
    followed by the build name, in place of whatever was there. *)
Theorem nested_key_law (target toSet : gmap string Value) (buildName sourceType sourceName : string) :
  descendable target (nonEmpty [buildName; sourceType]) = true ->
  exists target',
    setMapVal target toSet [buildName; sourceType; sourceName] = Return target'
    /\ index (VMap target') (nonEmpty [buildName; sourceType] ++ [sourceName])
       = Some (VMap toSet).
Proof.
  intros Hd. unfold setMapVal.
  change (removelast [buildName; sourceType; sourceName]) with [buildName; sourceType].
  change (List.last [buildName; sourceType; sourceName] EmptyString) with sourceName.
  now apply setMapVal_loop_index.
Qed.

(** The two cases of the nested-key law, on any mapping without a value
    under ["group"]. *)
Lemma nested_key_group_type_name (target toSet : gmap string Value) :
  target !! "group" = None ->
  exists target',
    setMapVal target toSet ["group"; "type"; "name"] = Return target'
    /\ index (VMap target') ["group"; "type"; "name"] = Some (VMap toSet).
Proof.
  intros Hg. unfold setMapVal.
  change (removelast ["group"; "type"; "name"]) with ["group"; "type"].
  change (List.last ["group"; "type"; "name"] EmptyString) with "name".
  apply (setMapVal_loop_index ["group"; "type"]).
  change (nonEmpty ["group"; "type"]) with ["group"; "type"].
  cbn [descendable]. now rewrite Hg.
Qed.

Lemma nested_key_group_name (target toSet : gmap string Value) :
  target !! "group" = None ->
  exists target',
    setMapVal target toSet ["group"; EmptyString; "name"] = Return target'
    /\ index (VMap target') ["group"; "name"] = Some (VMap toSet).
Proof.
  intros Hg. unfold setMapVal.
  change (removelast ["group"; EmptyString; "name"]) with ["group"; EmptyString].
  change (List.last ["group"; EmptyString; "name"] EmptyString) with "name".
  apply (setMapVal_loop_index ["group"; EmptyString]).
  change (nonEmpty ["group"; EmptyString]) with ["group"].
  cbn [descendable]. now rewrite Hg.
Qed.

(** C5, with every empty segment skipped, fails on an empty build name: the
    last key is not skipped, so the entry is one level deeper than the path
    of the non-empty keys, under the empty key. *)
Lemma nested_key_empty_last_segment :
  nonEmpty ["group"; "type"; EmptyString] = ["group"; "type"]
  /\ exists target',
       setMapVal ∅ Sample.entry ["group"; "type"; EmptyString] = Return target'
       /\ index (VMap target') ["group"; "type"; EmptyString] = Some (VMap Sample.entry)
       /\ index (VMap target') (nonEmpty ["group"; "type"; EmptyString])
          ≠ Some (VMap Sample.entry).
Proof.
  split; [reflexivity|].
  eexists. split; [reflexivity|]. split; [reflexivity|].
  intros Heq.
  apply (f_equal (fun found => match found with
                               | Some v => index v [EmptyString]
                               | None => None
                               end)) in Heq.
  vm_compute in Heq. discriminate.
Qed.

(** ** Properties of the HCL2 manifest *)

Section Hcl2.

Context {pkgs : Packages}.

(** The copy loop returns a body in which every attribute copied has the
    value of its expression, and the others are as they were. *)
Lemma hcl2CopyAttributes_lookup (attrs : list (string * Attribute cty_Value)) :
  forall wBody wBody' : gmap string cty_Value,
    NoDup (fst <$> attrs) ->
    hcl2CopyAttributes attrs wBody = Return wBody' ->
    forall key : string,
      wBody' !! key
      = match (list_to_map attrs : gmap string (Attribute cty_Value)) !! key with
        | Some attr => Some (attributeValue attr)
        | None => wBody !! key
        end.
Proof.
  induction attrs as [|[k attr] attrs IH]; intros wBody wBody' Hnd Hcopy key.
  - injection Hcopy as <-. cbn. now rewrite lookup_empty.
  - cbn in Hnd. pose proof (NoDup_cons_1_1 _ _ Hnd) as Hk. apply NoDup_cons_1_2 in Hnd.
    cbn [hcl2CopyAttributes] in Hcopy. unfold SetAttributeValue in Hcopy.
    destruct (Value_nil (Expr attr)) as [v d] eqn:Hv.
    destruct (hclwrite_hasTokens v); [|discriminate].
    change (hcl2CopyAttributes attrs (<[k:=v]> wBody) = Return wBody') in Hcopy.
    rewrite (IH _ _ Hnd Hcopy key). cbn [list_to_map foldr uncurry].
    destruct (decide (k = key)) as [<-|Hne].
    + rewrite lookup_insert_eq. rewrite (not_elem_of_list_to_map_1 _ _ Hk).
      rewrite lookup_insert_eq. unfold attributeValue. cbn [snd]. now rewrite Hv.
    + cbn [fst snd]. rewrite !lookup_insert_ne by exact Hne. reflexivity.
Qed.

(** The body that [Hcl2Manifest] builds keeps the value of every attribute
    of the parsed file but [manifest], and has no other attribute. *)
Lemma hcl2Body_frame (p : Config) (env : Process) (source : SourceArtifact)
    (aFiles : list ArtifactFile) (file : hcl_File cty_Value) (wBody : gmap string cty_Value) :
  hcl2Body p env source aFiles file = Return wBody ->
  forall key : string, key ≠ "manifest" ->
    wBody !! key = attributeValue <$> (fst (JustAttributes file) !! key).
Proof.
  unfold hcl2Body. destruct (JustAttributes file) as [attrs d]. cbn [fst].
  intros Hbody key Hkey.
  apply Outcome_bind_Return in Hbody as (manifest & _ & Hbody).
  apply Outcome_bind_Return in Hbody as (manifest' & _ & Hbody).
  apply Outcome_bind_Return in Hbody as (copied & Hcopy & Hbody).
  destruct (HCL2ValueFromConfigValue (VMap manifest')) as [v|]; [|discriminate].
  unfold SetAttributeValue in Hbody.
  destruct (hclwrite_hasTokens v); [|discriminate]. injection Hbody as <-.
  rewrite lookup_insert_ne by (intros Heq; now apply Hkey).
  rewrite (hcl2CopyAttributes_lookup _ _ _ (NoDup_fst_map_to_list attrs) Hcopy key).
  rewrite list_to_map_to_list, lookup_empty.
  destruct (attrs !! key); reflexivity.
Qed.

(** C6. When [Hcl2Manifest] returns without an error on a file that was
    parsed, the manifest file holds the bytes of a body in which every
    top-level attribute other than [manifest] has the value that its
    expression had in the parsed file, and no other attribute has appeared. *)
Theorem hcl2_frame (p : Config) (env : Process) (contents : list byte)
    (source : SourceArtifact) (aFiles : list ArtifactFile) (w w' : World)
    (a : option SourceArtifact) (keep forceOverride : bool) :
  Hcl2Manifest p env contents source aFiles w = (Return (a, keep, forceOverride, None), w') ->
  let file := fst (hclparse_ParseHCL contents (OutputPath p)) in
  exists (wBody : gmap string cty_Value) (out : list byte),
    hcl2Body p env source aFiles file = Return wBody
    /\ hclwrite_WriteTo wBody = (out, None)
    /\ data <$> (fs w' !! OutputPath p) = Some out
    /\ forall key : string, key ≠ "manifest" ->
         wBody !! key = attributeValue <$> (fst (JustAttributes file) !! key).
Proof.
  unfold Hcl2Manifest. destruct (hclparse_ParseHCL contents (OutputPath p)) as [file diags].
  cbn [fst]. intros Hm.
  destruct (HasErrors diags); [discriminate|].
  destruct (hcl2Body p env source aFiles file) as [wBody|] eqn:Hbody; [|discriminate].
  destruct (hclwrite_WriteTo wBody) as [out [e|]] eqn:Hout; [discriminate|].
  destruct (ioutil_WriteFile (OutputPath p) out perm_0664 w) as [e w2] eqn:Hw.
  injection Hm as _ _ _ -> <-.
  exists wBody, out. split; [reflexivity|]. split; [exact Hout|]. split.
  - destruct (ioutil_WriteFile_ok _ _ _ _ _ Hw) as [m ->]. reflexivity.
  - now apply hcl2Body_frame with (p := p) (env := env) (source := source) (aFiles := aFiles).
Qed.

(** The cases in which the load of C7 does use an empty mapping: no
    attribute [manifest], or one whose evaluation reports an error. *)
Lemma hcl2LoadManifest_absent (attrs : gmap string (Attribute cty_Value)) :
  attrs !! "manifest" = None -> hcl2LoadManifest attrs = Return ∅.
Proof. intros Ha. unfold hcl2LoadManifest. now rewrite Ha. Qed.

Lemma hcl2LoadManifest_errors (attrs : gmap string (Attribute cty_Value))
    (buildAttr : Attribute cty_Value) :
  attrs !! "manifest" = Some buildAttr ->
  HasErrors (snd (Value_nil (Expr buildAttr))) = true ->
  hcl2LoadManifest attrs = Return ∅.
Proof.
  intros Ha He. unfold hcl2LoadManifest. rewrite Ha.
  destruct (Value_nil (Expr buildAttr)) as [v d]. cbn [snd] in He. now rewrite He.
Qed.

(** C7 fails on the code. When the attribute [manifest] evaluates without an
    error to a value that is not a mapping, [Hcl2Manifest] does not fall back
    on an empty mapping: the type assertion panics, and nothing is written. *)
Theorem manifest_not_a_mapping_panics (p : Config) (env : Process) (contents : list byte)
    (source : SourceArtifact) (aFiles : list ArtifactFile) (w : World)
    (buildAttr : Attribute cty_Value) (v : Value) :
  HasErrors (snd (hclparse_ParseHCL contents (OutputPath p))) = false ->
  fst (JustAttributes (fst (hclparse_ParseHCL contents (OutputPath p)))) !! "manifest"
    = Some buildAttr ->
  HasErrors (snd (Value_nil (Expr buildAttr))) = false ->
  ConfigValueFromHCL2 (attributeValue buildAttr) = Some v ->
  (forall m, v ≠ VMap m) ->
  Hcl2Manifest p env contents source aFiles w
  = (Panic "interface conversion: interface {} is not map[string]interface {}", w).
Proof.
  unfold Hcl2Manifest, attributeValue.
  destruct (hclparse_ParseHCL contents (OutputPath p)) as [file diags]. cbn [fst snd].
  intros Hd Ha He Hv Hm. rewrite Hd.
  unfold hcl2Body, hcl2LoadManifest.
  destruct (JustAttributes file) as [attrs d]. cbn [fst] in Ha. rewrite Ha.
  destruct (Value_nil (Expr buildAttr)) as [buildVal d2]. cbn [fst snd] in *.
  rewrite He, Hv. cbn.
  destruct v; try reflexivity. now destruct (Hm m).
Qed.

End Hcl2.

(** ** Concrete runs *)

(** No manifest yet, no run identifier, the build time stripped: the
    document written holds the one build, with a build time of 0 and an
    empty last run identifier. *)
Example first_build_stripped_time :
  PostProcess (pkgs := Sample.packages) (Sample.config "m.json" false)
    {| environ := ∅; now := 1600000000 |} Sample.source (Sample.world ∅)
  = withLockFile "m.json.lock"
      (writeManifest (pkgs := Sample.packages) (Sample.config "m.json" false) Sample.source
         {| Builds := [Sample.record EmptyString]; LastRunUUID := EmptyString |})
      (Sample.world ∅).
Proof.
  apply (PostProcess_json (pkgs := Sample.packages) (Sample.config "m.json" false)
           {| environ := ∅; now := 1600000000 |} Sample.source (Sample.world ∅) ∅ []
           (Some (PathError "open" "m.json" ENOENT)) emptyManifestFile);
    try reflexivity.
  intros e [= <-]. reflexivity.
Qed.

(** The same run leaves the manifest on disk and no lock file. *)
Example first_build_files :
  dom (fs (snd (PostProcess (pkgs := Sample.packages) (Sample.config "m.json" false)
                  {| environ := ∅; now := 1600000000 |} Sample.source (Sample.world ∅))))
  = {["m.json"]}
  /\ data <$> (fs (snd (PostProcess (pkgs := Sample.packages) (Sample.config "m.json" false)
                          {| environ := ∅; now := 1600000000 |} Sample.source
                          (Sample.world ∅))) !! "m.json")
     = Some ["{"%byte; "b"%byte].
Proof. split; vm_compute; reflexivity. Qed.

(** Run ["R2"] with the force flag on a manifest written by run ["R1"]: the
    prior build is dropped. *)
Lemma force_reset_law_witness :
  Sample.unmarshal ["{"%byte] = inl Sample.prior
  /\ PostProcess (pkgs := Sample.packages) (Sample.config "m.json" true) (Sample.process "R2")
       Sample.source Sample.priorWorld
     = withLockFile "m.json.lock"
         (writeManifest (pkgs := Sample.packages) (Sample.config "m.json" true) Sample.source
            {| Builds := [Sample.record "R2"]; LastRunUUID := "R2" |})
         Sample.priorWorld.
Proof.
  split; [reflexivity|].
  apply (force_reset_law (pkgs := Sample.packages) (Sample.config "m.json" true) (Sample.process "R2") Sample.source
           Sample.priorWorld ∅ ["{"%byte] None Sample.prior);
    try reflexivity; try discriminate.
Defined.

(** Run ["R1"] again, with the force flag, on the manifest it wrote: the
    prior build is kept and the new one follows it. *)
Lemma no_truncation_law_witness :
  LastRunUUID Sample.prior = "R1"
  /\ PostProcess (pkgs := Sample.packages) (Sample.config "m.json" true) (Sample.process "R1")
       Sample.source Sample.priorWorld
     = withLockFile "m.json.lock"
         (writeManifest (pkgs := Sample.packages) (Sample.config "m.json" true) Sample.source
            {| Builds := Builds Sample.prior ++ [Sample.record "R1"]; LastRunUUID := "R1" |})
         Sample.priorWorld.
Proof.
  split; [reflexivity|].
  apply (no_truncation_law (pkgs := Sample.packages) (Sample.config "m.json" true)
           (Sample.process "R1") Sample.source Sample.priorWorld ∅ ["{"%byte] None Sample.prior);
    try reflexivity; try discriminate.
  right. reflexivity.
Defined.

(** A run that returns without an error has written a document with its run
    identifier. *)
Lemma last_run_uuid_written_witness :
  exists (written : ManifestFile) (out : list byte),
    LastRunUUID written = "R2"
    /\ Sample.marshal written = inl out
    /\ data <$> (fs (snd (PostProcess (pkgs := Sample.packages) (Sample.config "m.json" false)
                            (Sample.process "R2") Sample.source Sample.priorWorld))
                 !! "m.json") = Some out.
Proof.
  apply (last_run_uuid_written (pkgs := Sample.packages) (Sample.config "m.json" false)
           (Sample.process "R2") Sample.source Sample.priorWorld _
           (Some Sample.source) true true);
    reflexivity.
Defined.

(** The three ways of loading: a missing manifest, one that cannot be read,
    one that is not JSON. *)
Lemma load_error_taxonomy_witness :
  PostProcess (pkgs := Sample.packages) (Sample.config "m.json" false) (Sample.process "R2")
    Sample.source (Sample.world ∅)
  = withLockFile "m.json.lock"
      (writeManifest (pkgs := Sample.packages) (Sample.config "m.json" false) Sample.source
         {| Builds := [Sample.record "R2"]; LastRunUUID := "R2" |})
      (Sample.world ∅)
  /\ fst (PostProcess (pkgs := Sample.packages) (Sample.config "m.json" false)
            (Sample.process "R2") Sample.source Sample.unreadableWorld)
     = Return (Some Sample.source, true, true,
               Some (Errorf "Unable to open %s for reading: %s"
                       [ArgString "m.json"; ArgError (PathError "open" "m.json" EACCES)]))
  /\ fst (PostProcess (pkgs := Sample.packages) (Sample.config "m.json" false)
            (Sample.process "R2") Sample.source Sample.garbageWorld)
     = Return (Some Sample.source, true, true,
               Some (Errorf "Unable to parse content from %s: %s"
                       [ArgString "m.json";
                        ArgError (LibraryError "invalid character looking for beginning of value")])).
Proof.
  split; [|split].
  - apply (load_error_taxonomy (pkgs := Sample.packages) (Sample.config "m.json" false)
             (Sample.process "R2") Sample.source (Sample.world ∅) ∅);
      reflexivity.
  - apply (load_error_taxonomy (pkgs := Sample.packages) (Sample.config "m.json" false)
             (Sample.process "R2") Sample.source Sample.unreadableWorld ∅ eq_refl eq_refl)
      with (f := {| mode := 0; data := ["{"%byte] |}); reflexivity.
  - apply (load_error_taxonomy (pkgs := Sample.packages) (Sample.config "m.json" false)
             (Sample.process "R2") Sample.source Sample.garbageWorld ∅ eq_refl eq_refl)
      with (f := Sample.file ["x"%byte]); try reflexivity; discriminate.
Defined.

(** An empty manifest file and a missing one give the same result. *)
Lemma empty_file_as_absent_witness :
  fst (PostProcess (pkgs := Sample.packages) (Sample.config "m.json" false)
         (Sample.process "R2") Sample.source Sample.emptyFileWorld)
  = fst (PostProcess (pkgs := Sample.packages) (Sample.config "m.json" false)
           (Sample.process "R2") Sample.source
           (setFs Sample.emptyFileWorld (delete "m.json" (fs Sample.emptyFileWorld)))).
Proof.
  apply (empty_file_as_absent (pkgs := Sample.packages) (Sample.config "m.json" false)
           (Sample.process "R2") Sample.source Sample.emptyFileWorld ∅ (Sample.file []));
    reflexivity.
Defined.

(** C10, with the caller unable to tell the two apart, fails on an empty
    manifest that can be read and not written: the load and the merge are
    those of a missing file, but the write fails, and the caller gets
    "Unable to write" where the missing file gives no error. *)
Lemma empty_read_only_file_differs :
  fs Runs.readOnlyEmptyWorld !! "m.json" = Some {| mode := 4 * 64; data := [] |}
  /\ canRead {| mode := 4 * 64; data := [] |} = true
  /\ fst (PostProcess (pkgs := Sample.packages) (Sample.config "m.json" false)
            (Sample.process "R2") Sample.source Runs.readOnlyEmptyWorld)
     = Return (Some Sample.source, true, true,
               Some (Errorf "Unable to write %s: %s"
                       [ArgString "m.json"; ArgError (PathError "open" "m.json" EACCES)]))
  /\ fst (PostProcess (pkgs := Sample.packages) (Sample.config "m.json" false)
            (Sample.process "R2") Sample.source
            (setFs Runs.readOnlyEmptyWorld (delete "m.json" (fs Runs.readOnlyEmptyWorld))))
     = Return (Some Sample.source, true, true, None)
  /\ fst (PostProcess (pkgs := Sample.packages) (Sample.config "m.json" false)
            (Sample.process "R2") Sample.source Runs.readOnlyEmptyWorld)
     ≠ fst (PostProcess (pkgs := Sample.packages) (Sample.config "m.json" false)
              (Sample.process "R2") Sample.source
              (setFs Runs.readOnlyEmptyWorld (delete "m.json" (fs Runs.readOnlyEmptyWorld)))).
Proof.
  split; [reflexivity|]. split; [reflexivity|]. split; [reflexivity|].
  split; [reflexivity|].
  intros Heq. vm_compute in Heq. discriminate Heq.
Defined.

(** A lock file left behind: three attempts, then the manifest is updated
    all the same and the lock file is removed. *)
Lemma lock_exhaustion_proceeds_witness :
  fs Sample.heldWorld !! "m.json.lock" = Some (Sample.file [])
  /\ PostProcess (pkgs := Sample.packages) (Sample.config "m.json" false) (Sample.process "R1")
       Sample.source Sample.heldWorld
     = (Return (Some Sample.source, true, true, None),
        {| fs := <["m.json" := Sample.file ["{"%byte; "b"%byte; "b"%byte]]> ∅;
           trace := exhausted "m.json.lock" |}).
Proof.
  split; [reflexivity|].
  etransitivity.
  - apply (lock_exhaustion_proceeds (pkgs := Sample.packages) (Sample.config "m.json" false)
             (Sample.process "R1") Sample.source Sample.heldWorld ∅ (Sample.file []));
      reflexivity.
  - vm_compute. reflexivity.
Defined.

(** An empty builder type on a mapping that has the group already. *)
Lemma nested_key_law_witness :
  exists target',
    setMapVal (<["group" := VMap ∅]> ∅) Sample.entry ["group"; EmptyString; "name"]
    = Return target'
    /\ index (VMap target') ["group"; "name"] = Some (VMap Sample.entry).
Proof.
  apply (nested_key_law (<["group" := VMap ∅]> ∅) Sample.entry "group" EmptyString "name").
  vm_compute. reflexivity.
Defined.

(** A file with [region = "eu"]: the attribute is kept with its value. *)
Lemma hcl2_frame_witness :
  exists (wBody : gmap string Sample.cty) (out : list byte),
    hcl2Body (pkgs := Sample.packages) (Sample.config "m.pkrvars.hcl" false)
      (Sample.process "R2") Sample.source [] (fst (Sample.parse ["r"%byte] "m.pkrvars.hcl"))
    = Return wBody
    /\ hclwrite_WriteTo (Packages := Sample.packages) wBody = (out, None)
    /\ data <$> (fs (snd (Hcl2Manifest (pkgs := Sample.packages)
                            (Sample.config "m.pkrvars.hcl" false) (Sample.process "R2")
                            ["r"%byte] Sample.source [] Sample.regionWorld))
                 !! "m.pkrvars.hcl") = Some out
    /\ forall key : string, key ≠ "manifest" ->
         wBody !! key
         = attributeValue
             <$> (fst (JustAttributes (fst (Sample.parse ["r"%byte] "m.pkrvars.hcl"))) !! key).
Proof.
  apply (hcl2_frame (pkgs := Sample.packages) (Sample.config "m.pkrvars.hcl" false)
           (Sample.process "R2") ["r"%byte] Sample.source [] Sample.regionWorld _
           (Some Sample.source) true true).
  vm_compute. reflexivity.
Defined.

(** A file with [manifest = "x"]: the invocation panics. *)
Lemma manifest_not_a_mapping_panics_witness :
  Hcl2Manifest (pkgs := Sample.packages) (Sample.config "m.pkrvars.hcl" false)
    (Sample.process "R2") ["m"%byte] Sample.source [] Sample.stringManifestWorld
  = (Panic "interface conversion: interface {} is not map[string]interface {}",
     Sample.stringManifestWorld).
Proof.
  apply (manifest_not_a_mapping_panics (pkgs := Sample.packages)
           (Sample.config "m.pkrvars.hcl" false) (Sample.process "R2") ["m"%byte]
           Sample.source [] Sample.stringManifestWorld (Sample.literal (VString "x"))
           (VString "x"));
    try reflexivity.
  intros m; discriminate.
Defined.

(** ** Which files an invocation touches *)

Section Footprint.

Context {pkgs : Packages}.

(** The statements under the lock change no file but the manifest. *)
Lemma readMergeWrite_other (p : Config) (env : Process) (source : SourceArtifact)
    (aFiles : list ArtifactFile) (w : World) (path : string) :
  path ≠ OutputPath p ->
  fs (snd (readMergeWrite p env source aFiles w)) !! path = fs w !! path.
Proof.
  intros Hne.
  unfold readMergeWrite, mergeWrite, Hcl2Manifest, writeManifest,
    ioutil_ReadFile, ioutil_WriteFile, setFs.
  repeat (case_match; simplify_eq/=); try reflexivity;
    rewrite lookup_insert_ne by (intros Heq; now apply Hne); reflexivity.
Qed.


(** When they end before the call of [ioutil.WriteFile], the files are as
    they were. *)
Lemma readMergeWrite_before_write (p : Config) (env : Process) (source : SourceArtifact)
    (aFiles : list ArtifactFile) (w : World) :
  endsBeforeWrite (fst (readMergeWrite p env source aFiles w)) = true ->
  snd (readMergeWrite p env source aFiles w) = w.
Proof.
  unfold readMergeWrite, mergeWrite, Hcl2Manifest, writeManifest,
    ioutil_ReadFile, ioutil_WriteFile, setFs.
  intros Hends.
  repeat (case_match; simplify_eq/=); try reflexivity; discriminate.
Qed.

(** Whatever they do, they return the artifact they were given, to be kept. *)
Lemma readMergeWrite_result (p : Config) (env : Process) (source : SourceArtifact)
    (aFiles : list ArtifactFile) (w : World) (r : Result) :
  fst (readMergeWrite p env source aFiles w) = Return r ->
  exists err, r = (Some source, true, true, err).
Proof.
  unfold readMergeWrite, mergeWrite, Hcl2Manifest, writeManifest,
    ioutil_ReadFile, ioutil_WriteFile, setFs.
  intros Hr.
  repeat (case_match; simplify_eq/=); eauto.
Qed.

(** X1. An invocation changes no file other than the manifest and the lock
    file, whatever its outcome. *)
Theorem PostProcess_footprint (p : Config) (env : Process) (source : SourceArtifact)
    (w : World) (path : string) :
  path ≠ OutputPath p ->
  path ≠ OutputPath p +:+ ".lock" ->
  fs (snd (PostProcess p env source w)) !! path = fs w !! path.
Proof.
  intros Hm Hl. unfold PostProcess.
  destruct (interpolateCustomData _ _ _) as [customData|err]; [|reflexivity].
  unfold withLockFile, lockFile.
  destruct (readMergeWrite _ env source _ _) as [r w2] eqn:Hrmw. cbn [snd].
  rewrite cleanup_lookup_ne by (intros Heq; now apply Hl).
  change w2 with (snd (r, w2)). rewrite <- Hrmw.
  rewrite readMergeWrite_other by exact Hm.
  apply lockFile_loop_lookup_ne. intros Heq. now apply Hl.
Qed.

(** X2. Once the custom data are interpolated, an invocation that returns,
    with or without an error, returns the source artifact with keep and
    force-override set: the manifest never lets the artifact be deleted. *)
Theorem PostProcess_keeps_artifact (p : Config) (env : Process) (source : SourceArtifact)
    (w w' : World) (customData : gmap string string) (r : Result) :
  interpolateCustomData (generatedData source) (map_to_list (CustomData p)) (CustomData p)
    = inl customData ->
  PostProcess p env source w = (Return r, w') ->
  exists err, r = (Some source, true, true, err).
Proof.
  intros Hi Hpp. unfold PostProcess in Hpp. rewrite Hi in Hpp.
  unfold withLockFile, lockFile in Hpp.
  destruct (readMergeWrite _ env source _ _) as [r2 w2] eqn:Hrmw.
  injection Hpp as -> _.
  eapply readMergeWrite_result. rewrite Hrmw. reflexivity.
Qed.

(** X3. Nothing but the call of [ioutil.WriteFile] changes the manifest: an
    invocation that ends before that call, by a panic or by an error built
    with [fmt.Errorf] other than "Unable to write" (the interpolation, open,
    parse and marshal errors), leaves the manifest file as it was.  Nothing
    is said of the runs in which [ioutil.WriteFile] itself fails. *)
Theorem run_ending_before_write_leaves_manifest (p : Config) (env : Process)
    (source : SourceArtifact) (w : World) :
  endsBeforeWrite (fst (PostProcess p env source w)) = true ->
  fs (snd (PostProcess p env source w)) !! OutputPath p = fs w !! OutputPath p.
Proof.
  unfold PostProcess.
  destruct (interpolateCustomData _ _ _) as [customData|err]; [|reflexivity].
  unfold withLockFile, lockFile.
  set (p' := setCustomData p customData).
  set (aFiles := map (artifactFile p' w) (Files source)).
  set (w1 := lockFile_loop 3 0 (OutputPath p' +:+ ".lock") w).
  intros Hends.
  assert (Hw : snd (readMergeWrite p' env source aFiles w1) = w1).
  { apply readMergeWrite_before_write.
    destruct (readMergeWrite p' env source aFiles w1). exact Hends. }
  destruct (readMergeWrite p' env source aFiles w1) as [r w2]. cbn [snd] in *. subst w2.
  rewrite cleanup_lookup_ne by apply lockFilename_ne.
  apply lockFile_loop_lookup_ne, lockFilename_ne.
Qed.

End Footprint.

(** ** The lock file and the outcome *)

Section AdvisoryLock.

Context {pkgs : Packages}.


(** The statements under the lock add nothing to the trace. *)
Lemma readMergeWrite_keeps_trace (p : Config) (env : Process) (source : SourceArtifact)
    (aFiles : list ArtifactFile) (w : World) :
  trace (snd (readMergeWrite p env source aFiles w)) = trace w.
Proof.
  destruct w as [m t].
  change {| fs := m; trace := t |} with {| fs := fs {| fs := m; trace := t |}; trace := t |}.
  rewrite readMergeWrite_trace.
  destruct (readMergeWrite p env source aFiles _) as [r w']. reflexivity.
Qed.


(** X5. When there is no lock file at the start, the lock is taken at the
    first attempt: through the whole invocation there is one sleep, of
    length 0, one successful open, and no log line. *)
Theorem free_lock_first_attempt (p : Config) (env : Process) (source : SourceArtifact)
    (w : World) (customData : gmap string string) :
  interpolateCustomData (generatedData source) (map_to_list (CustomData p)) (CustomData p)
    = inl customData ->
  fs w !! (OutputPath p +:+ ".lock") = None ->
  trace (snd (PostProcess p env source w))
  = trace w ++ [EvSleep 0; EvOpenFile (OutputPath p +:+ ".lock") None].
Proof.
  intros Hi Hfree. unfold PostProcess. rewrite Hi.
  unfold withLockFile, lockFile.
  change (OutputPath (setCustomData p customData)) with (OutputPath p).
  rewrite (lockFile_loop_free _ _ Hfree).
  match goal with |- context [readMergeWrite ?a ?b ?c ?d ?e] =>
    pose proof (readMergeWrite_keeps_trace a b c d e) as Ht;
    destruct (readMergeWrite a b c d e) as [r w2] end.
  cbn [snd] in *. rewrite os_Remove_world. exact Ht.
Qed.

End AdvisoryLock.

(** ** Writing the JSON manifest *)

Section JsonWrite.

Context {pkgs : Packages}.

(** A run on a path without manifest, when the document with the one build
    marshals. *)
Lemma PostProcess_creates (p : Config) (env : Process) (source : SourceArtifact)
    (w : World) (customData : gmap string string) (out : list byte) :
  interpolateCustomData (generatedData source) (map_to_list (CustomData p)) (CustomData p)
    = inl customData ->
  HasSuffix (OutputPath p) ".pkrvars.hcl" = false ->
  fs w !! OutputPath p = None ->
  let p' := setCustomData p customData in
  let artifact := currentArtifact p' env source (map (artifactFile p' w) (Files source)) in
  json_MarshalIndent {| Builds := [artifact]; LastRunUUID := os_Getenv env "PACKER_RUN_UUID" |}
    = inl out ->
  fst (PostProcess p env source w) = Return (Some source, true, true, None)
  /\ fs (snd (PostProcess p env source w)) !! OutputPath p
     = Some {| mode := perm_0664; data := out |}
  /\ fs (snd (PostProcess p env source w)) !! (OutputPath p +:+ ".lock") = None.
Proof.
  intros Hi Hs Hf p' artifact Hj.
  rewrite (PostProcess_json _ _ _ _ _ _ _ emptyManifestFile Hi Hs
             (ioutil_ReadFile_missing _ _ Hf));
    [|intros e [= <-]; reflexivity|reflexivity].
  fold p'. fold artifact. rewrite addArtifact_empty.
  unfold withLockFile, lockFile, writeManifest. rewrite Hj.
  change (OutputPath p') with (OutputPath p).
  unfold ioutil_WriteFile.
  rewrite lockFile_loop_lookup_ne by apply lockFilename_ne. rewrite Hf. cbn [fst snd].
  split; [reflexivity|]. split.
  - rewrite cleanup_lookup_ne by apply lockFilename_ne. cbn. apply lookup_insert_eq.
  - apply cleanup_lookup_eq.
Qed.

(** X6. The first write: when there is no manifest and the document with
    the one build marshals, the invocation returns no error, the manifest
    file exists afterwards and holds exactly the marshalled bytes, and no
    lock file is left.  (Nothing is said of the mode of the new file.) *)
Theorem first_write_creates_manifest (p : Config) (env : Process) (source : SourceArtifact)
    (w : World) (customData : gmap string string) (out : list byte) :
  interpolateCustomData (generatedData source) (map_to_list (CustomData p)) (CustomData p)
    = inl customData ->
  HasSuffix (OutputPath p) ".pkrvars.hcl" = false ->
  fs w !! OutputPath p = None ->
  let p' := setCustomData p customData in
  let artifact := currentArtifact p' env source (map (artifactFile p' w) (Files source)) in
  json_MarshalIndent {| Builds := [artifact]; LastRunUUID := os_Getenv env "PACKER_RUN_UUID" |}
    = inl out ->
  fst (PostProcess p env source w) = Return (Some source, true, true, None)
  /\ data <$> (fs (snd (PostProcess p env source w)) !! OutputPath p) = Some out
  /\ fs (snd (PostProcess p env source w)) !! (OutputPath p +:+ ".lock") = None.
Proof.
  intros Hi Hs Hf p' artifact Hj.
  rewrite (PostProcess_json _ _ _ _ _ _ _ emptyManifestFile Hi Hs
             (ioutil_ReadFile_missing _ _ Hf));
    [|intros e [= <-]; reflexivity|reflexivity].
  fold p'. fold artifact. rewrite addArtifact_empty.
  unfold withLockFile, lockFile, writeManifest. rewrite Hj.
  change (OutputPath p') with (OutputPath p).
  unfold ioutil_WriteFile.
  rewrite lockFile_loop_lookup_ne by apply lockFilename_ne. rewrite Hf. cbn [fst snd].
  split; [reflexivity|]. split.
  - rewrite cleanup_lookup_ne by apply lockFilename_ne. cbn [fs setFs].
    rewrite lookup_insert_eq. reflexivity.
  - apply cleanup_lookup_eq.
Qed.

(** X7. The errors of the write.  With a manifest that is read and parsed:
    when the merged document does not marshal the invocation returns
    "Unable to marshal JSON", and when it does and the manifest file cannot
    be written the invocation returns "Unable to write". *)
Theorem write_errors (p : Config) (env : Process) (source : SourceArtifact) (w : World)
    (customData : gmap string string) (f : File) (doc : ManifestFile) :
  interpolateCustomData (generatedData source) (map_to_list (CustomData p)) (CustomData p)
    = inl customData ->
  HasSuffix (OutputPath p) ".pkrvars.hcl" = false ->
  fs w !! OutputPath p = Some f -> canRead f = true ->
  parseManifest (data f) = inl doc ->
  let p' := setCustomData p customData in
  let artifact := currentArtifact p' env source (map (artifactFile p' w) (Files source)) in
  let merged := addArtifact p' env doc artifact in
  (forall err, json_MarshalIndent merged = inr err ->
     fst (PostProcess p env source w)
     = Return (Some source, true, true,
               Some (Errorf "Unable to marshal JSON %s" [ArgError err])))
  /\ (forall out, json_MarshalIndent merged = inl out -> canWrite f = false ->
        fst (PostProcess p env source w)
        = Return (Some source, true, true,
                  Some (Errorf "Unable to write %s: %s"
                          [ArgString (OutputPath p);
                           ArgError (PathError "open" (OutputPath p) EACCES)]))).
Proof.
  intros Hi Hs Hf Hr Hp p' artifact merged.
  assert (Hpp := PostProcess_json _ env _ _ _ _ _ doc Hi Hs
                   (ioutil_ReadFile_readable _ _ _ Hf Hr)).
  rewrite Hpp; [|discriminate|exact Hp]. fold p'. fold artifact. fold merged.
  unfold withLockFile, lockFile, writeManifest.
  change (OutputPath p') with (OutputPath p).
  split.
  - intros err Hj. rewrite Hj. reflexivity.
  - intros out Hj Hw. rewrite Hj. unfold ioutil_WriteFile.
    rewrite lockFile_loop_lookup_ne by apply lockFilename_ne. rewrite Hf, Hw. reflexivity.
Qed.

(** X8. Two runs in a row.  After a first run on a path without manifest,
    when [json.Unmarshal] gives back the document that was marshalled, a
    second run on the same path is the writing, under the lock, of the merge
    of its build into that document; when the second run has no force flag
    or has the run identifier of the first, the builds are the two records
    in the order of the runs. *)
Theorem second_run_appends (p1 p2 : Config) (env1 env2 : Process)
    (source1 source2 : SourceArtifact) (w : World)
    (customData1 customData2 : gmap string string) (out : list byte) :
  interpolateCustomData (generatedData source1) (map_to_list (CustomData p1)) (CustomData p1)
    = inl customData1 ->
  interpolateCustomData (generatedData source2) (map_to_list (CustomData p2)) (CustomData p2)
    = inl customData2 ->
  HasSuffix (OutputPath p1) ".pkrvars.hcl" = false ->
  OutputPath p2 = OutputPath p1 ->
  fs w !! OutputPath p1 = None ->
  let p1' := setCustomData p1 customData1 in
  let p2' := setCustomData p2 customData2 in
  let w1 := snd (PostProcess p1 env1 source1 w) in
  let first := currentArtifact p1' env1 source1 (map (artifactFile p1' w) (Files source1)) in
  let second := currentArtifact p2' env2 source2 (map (artifactFile p2' w1) (Files source2)) in
  let written := {| Builds := [first]; LastRunUUID := os_Getenv env1 "PACKER_RUN_UUID" |} in
  json_MarshalIndent written = inl out ->
  out ≠ [] ->
  json_Unmarshal out = inl written ->
  PostProcess p2 env2 source2 w1
  = withLockFile (OutputPath p1 +:+ ".lock")
      (writeManifest p2' source2 (addArtifact p2' env2 written second)) w1
  /\ (PackerForce p2 = false
      \/ os_Getenv env2 "PACKER_RUN_UUID" = os_Getenv env1 "PACKER_RUN_UUID" ->
      addArtifact p2' env2 written second
      = {| Builds := [first; second]; LastRunUUID := os_Getenv env2 "PACKER_RUN_UUID" |}).
Proof.
  intros Hi1 Hi2 Hs Hpath Hf p1' p2' w1 first second written Hj Hne Hu.
  destruct (PostProcess_creates p1 env1 source1 w customData1 out Hi1 Hs Hf Hj)
    as (_ & Hw1 & _).
  fold w1 in Hw1. split.
  - rewrite <- Hpath.
    apply (PostProcess_json p2 env2 source2 w1 customData2 out None written Hi2).
    + now rewrite Hpath.
    + rewrite Hpath. now apply (ioutil_ReadFile_readable _ _ _ Hw1).
    + discriminate.
    + unfold parseManifest. destruct out as [|b out]; [congruence|]. exact Hu.
  - intros Hkeep. unfold addArtifact. change (PackerForce p2') with (PackerForce p2).
    change (LastRunUUID written) with (os_Getenv env1 "PACKER_RUN_UUID").
    destruct Hkeep as [->|Hrun]; [reflexivity|].
    apply String.eqb_eq in Hrun. rewrite Hrun, andb_false_r. reflexivity.
Qed.

End JsonWrite.

(** ** More on [setMapVal] *)

(** When the loop returns, the entry is under its path. *)
Lemma setMapVal_loop_returns (keys : list string) (target toSet target' : gmap string Value)
    (last : string) :
  setMapVal_loop target toSet keys last = Return target' ->
  descendable target (nonEmpty keys) = true
  /\ index (VMap target') (nonEmpty keys ++ [last]) = Some (VMap toSet).
Proof.
  intros Hret. destruct (descendable target (nonEmpty keys)) eqn:Hd.
  - destruct (setMapVal_loop_index keys target toSet last Hd) as (t & Ht & Hindex).
    rewrite Hret in Ht. injection Ht as <-. now split.
  - destruct (setMapVal_loop_blocked keys target toSet last Hd) as [msg Hmsg].
    rewrite Hret in Hmsg. discriminate.
Qed.

(** A call with keys is the loop on all keys but the last. *)
Lemma setMapVal_unfold (target toSet : gmap string Value) (keys : list string) :
  keys ≠ [] ->
  setMapVal target toSet keys
  = setMapVal_loop target toSet (removelast keys) (List.last keys EmptyString).
Proof. destruct keys; [congruence | reflexivity]. Qed.

(** No path that starts in the empty mapping leads anywhere. *)
Lemma index_empty_diverge (path other : list string) :
  diverge path other = true -> index (VMap ∅) other = None.
Proof.
  destruct path, other; cbn; try discriminate. intros _. now rewrite lookup_empty.
Qed.

(** The loop leaves what is off the path of the entry. *)
Lemma setMapVal_loop_frame (keys : list string) :
  forall (target toSet target' : gmap string Value) (last : string) (other : list string),
    setMapVal_loop target toSet keys last = Return target' ->
    diverge (nonEmpty keys ++ [last]) other = true ->
    index (VMap target') other = index (VMap target) other.
Proof.
  induction keys as [|key keys IH]; intros target toSet target' last other Hret Hdiv.
  - injection Hret as <-. destruct other as [|key' other]; [discriminate|].
    cbn in Hdiv. destruct (decide (last = key')) as [->|Hne].
    + destruct other; discriminate.
    + cbn. rewrite lookup_insert_ne by exact Hne. reflexivity.
  - cbn [setMapVal_loop] in Hret. unfold nonEmpty in *. rewrite filter_cons in Hdiv.
    destruct (decide (key = EmptyString)) as [->|Hkey].
    + rewrite decide_False in Hdiv by (intros Hk; now apply Hk). now apply (IH _ _ _ _ _ Hret).
    + rewrite decide_True in Hdiv by exact Hkey.
      destruct other as [|key' other]; [discriminate|].
      cbn [app diverge] in Hdiv.
      destruct (target !! key) as [v|] eqn:Hk.
      * destruct v as [| | | | | | |value]; try discriminate.
        apply Outcome_bind_Return in Hret as (value' & Hloop & [= <-]).
        destruct (decide (key = key')) as [<-|Hne].
        -- cbn. rewrite lookup_insert_eq, Hk. cbn in IH.
           exact (IH _ _ _ _ _ Hloop Hdiv).
        -- cbn. rewrite lookup_insert_ne by exact Hne. reflexivity.
      * apply Outcome_bind_Return in Hret as (value' & Hloop & [= <-]).
        destruct (decide (key = key')) as [<-|Hne].
        -- cbn. rewrite lookup_insert_eq, Hk.
           rewrite (IH _ _ _ _ _ Hloop Hdiv). exact (index_empty_diverge _ _ Hdiv).
        -- cbn. rewrite lookup_insert_ne by exact Hne. reflexivity.
Qed.

(** A second pass of the loop over the same keys forgets the first. *)
Lemma setMapVal_loop_twice (keys : list string) :
  forall (target first second target1 : gmap string Value) (last : string),
    setMapVal_loop target first keys last = Return target1 ->
    setMapVal_loop target1 second keys last = setMapVal_loop target second keys last.
Proof.
  induction keys as [|key keys IH]; intros target first second target1 last Hret.
  - injection Hret as <-. cbn. now rewrite insert_insert_eq.
  - cbn [setMapVal_loop] in *.
    destruct (decide (key = EmptyString)) as [->|Hkey]; [now apply (IH _ first)|].
    destruct (target !! key) as [v|] eqn:Hk.
    + destruct v as [| | | | | | |value]; try discriminate.
      apply Outcome_bind_Return in Hret as (value' & Hloop & [= <-]).
      rewrite lookup_insert_eq. rewrite (IH _ _ second _ _ Hloop).
      destruct (setMapVal_loop value second keys last); cbn; [|reflexivity].
      now rewrite insert_insert_eq.
    + apply Outcome_bind_Return in Hret as (value' & Hloop & [= <-]).
      rewrite lookup_insert_eq. rewrite (IH _ _ second _ _ Hloop).
      destruct (setMapVal_loop ∅ second keys last); cbn; [|reflexivity].
      now rewrite insert_insert_eq.
Qed.

(** X9. [setMapVal] returns exactly when every value it finds on the way
    down the non-empty keys before the last is a map; otherwise, and when it
    is given no key at all, it panics. *)
Theorem setMapVal_returns_iff (target toSet : gmap string Value) (keys : list string) :
  (exists target', setMapVal target toSet keys = Return target')
  <-> keys ≠ [] /\ descendable target (nonEmpty (removelast keys)) = true.
Proof.
  split.
  - intros [target' Hret]. destruct keys as [|key keys]; [discriminate|].
    split; [discriminate|].
    rewrite setMapVal_unfold in Hret by discriminate.
    now apply setMapVal_loop_returns in Hret as [Hd _].
  - intros [Hne Hd]. rewrite setMapVal_unfold by exact Hne.
    destruct (setMapVal_loop_index _ target toSet (List.last keys EmptyString) Hd)
      as (target' & Hret & _).
    eauto.
Qed.

(** X10. When [setMapVal] returns, for any keys, the entry is the value
    under the non-empty keys before the last followed by the last key, and
    every value whose path parts ways with that one is as it was: the
    entries of other builds are kept. *)
Theorem setMapVal_places_and_keeps (target toSet target' : gmap string Value)
    (keys : list string) :
  setMapVal target toSet keys = Return target' ->
  index (VMap target') (entryPath keys) = Some (VMap toSet)
  /\ forall other : list string,
       diverge (entryPath keys) other = true ->
       index (VMap target') other = index (VMap target) other.
Proof.
  intros Hret. destruct keys as [|key keys]; [discriminate|].
  rewrite setMapVal_unfold in Hret by discriminate. unfold entryPath. split.
  - now apply setMapVal_loop_returns in Hret as [_ Hindex].
  - intros other Hdiv. exact (setMapVal_loop_frame _ _ _ _ _ _ Hret Hdiv).
Qed.

(** X11. Last write wins: after [setMapVal] has put an entry under some
    keys, putting another entry under the same keys gives the mapping that
    the second call alone gives; nothing of the first entry is merged. *)
Theorem setMapVal_last_write_wins (target first second target1 : gmap string Value)
    (keys : list string) :
  setMapVal target first keys = Return target1 ->
  setMapVal target1 second keys = setMapVal target second keys.
Proof.
  intros Hret. destruct keys as [|key keys]; [discriminate|].
  rewrite !setMapVal_unfold in * by discriminate.
  exact (setMapVal_loop_twice _ _ _ _ _ _ Hret).
Qed.

(** ** More on the HCL2 manifest *)

Section Hcl2Entry.

Context {pkgs : Packages}.

(** What a run of [Hcl2Manifest] without error has done. *)
Lemma Hcl2Manifest_written (p : Config) (env : Process) (contents : list byte)
    (source : SourceArtifact) (aFiles : list ArtifactFile) (w w' : World)
    (a : option SourceArtifact) (keep forceOverride : bool) :
  Hcl2Manifest p env contents source aFiles w = (Return (a, keep, forceOverride, None), w') ->
  exists (wBody : gmap string cty_Value) (out : list byte),
    hcl2Body p env source aFiles (fst (hclparse_ParseHCL contents (OutputPath p))) = Return wBody
    /\ hclwrite_WriteTo wBody = (out, None)
    /\ data <$> (fs w' !! OutputPath p) = Some out.
Proof.
  unfold Hcl2Manifest. destruct (hclparse_ParseHCL contents (OutputPath p)) as [file diags].
  cbn [fst]. intros Hm.
  destruct (HasErrors diags); [discriminate|].
  destruct (hcl2Body p env source aFiles file) as [wBody|] eqn:Hbody; [|discriminate].
  destruct (hclwrite_WriteTo wBody) as [out [e|]] eqn:Hout; [discriminate|].
  destruct (ioutil_WriteFile (OutputPath p) out perm_0664 w) as [e w2] eqn:Hw.
  injection Hm as _ _ _ -> <-.
  exists wBody, out. split; [reflexivity|]. split; [exact Hout|].
  destruct (ioutil_WriteFile_ok _ _ _ _ _ Hw) as [m ->]. reflexivity.
Qed.

(** The attribute [manifest] of the body that is built. *)
Lemma hcl2Body_manifest (p : Config) (env : Process) (source : SourceArtifact)
    (aFiles : list ArtifactFile) (file : hcl_File cty_Value) (wBody : gmap string cty_Value) :
  hcl2Body p env source aFiles file = Return wBody ->
  exists (prior manifest : gmap string Value) (v : cty_Value),
    hcl2LoadManifest (fst (JustAttributes file)) = Return prior
    /\ setMapVal prior (hcl2Entry p env source aFiles)
         [PackerBuildGroupName p; PackerBuilderType p; PackerBuildName p] = Return manifest
    /\ HCL2ValueFromConfigValue (VMap manifest) = Some v
    /\ wBody !! "manifest" = Some v.
Proof.
  unfold hcl2Body. destruct (JustAttributes file) as [attrs d]. cbn [fst]. intros Hbody.
  apply Outcome_bind_Return in Hbody as (prior & Hload & Hbody).
  apply Outcome_bind_Return in Hbody as (manifest & Hset & Hbody).
  apply Outcome_bind_Return in Hbody as (copied & _ & Hbody).
  destruct (HCL2ValueFromConfigValue (VMap manifest)) as [v|] eqn:Hv; [|discriminate].
  unfold SetAttributeValue in Hbody.
  destruct (hclwrite_hasTokens v); [|discriminate]. injection Hbody as <-.
  exists prior, manifest, v. repeat split; try assumption. apply lookup_insert_eq.
Qed.

(** X12. When [Hcl2Manifest] returns without an error, the manifest file
    holds the bytes of a body whose attribute [manifest] is the conversion of
    a mapping in which the entry of the current build is the value under
    (group name, builder type, build name), the empty ones of the first two
    left out, and in which every value of the prior mapping off that path is
    as it was. *)
Theorem hcl2_entry_written (p : Config) (env : Process) (contents : list byte)
    (source : SourceArtifact) (aFiles : list ArtifactFile) (w w' : World)
    (a : option SourceArtifact) (keep forceOverride : bool) :
  Hcl2Manifest p env contents source aFiles w = (Return (a, keep, forceOverride, None), w') ->
  let keys := [PackerBuildGroupName p; PackerBuilderType p; PackerBuildName p] in
  exists (wBody : gmap string cty_Value) (out : list byte)
         (prior manifest : gmap string Value) (v : cty_Value),
    hclwrite_WriteTo wBody = (out, None)
    /\ data <$> (fs w' !! OutputPath p) = Some out
    /\ wBody !! "manifest" = Some v
    /\ HCL2ValueFromConfigValue (VMap manifest) = Some v
    /\ hcl2LoadManifest
         (fst (JustAttributes (fst (hclparse_ParseHCL contents (OutputPath p))))) = Return prior
    /\ index (VMap manifest) (entryPath keys) = Some (VMap (hcl2Entry p env source aFiles))
    /\ forall other : list string,
         diverge (entryPath keys) other = true ->
         index (VMap manifest) other = index (VMap prior) other.
Proof.
  intros Hm keys.
  destruct (Hcl2Manifest_written _ _ _ _ _ _ _ _ _ _ Hm) as (wBody & out & Hbody & Hout & Hdata).
  destruct (hcl2Body_manifest _ _ _ _ _ _ Hbody) as (prior & manifest & v & Hload & Hset & Hv & Hl).
  exists wBody, out, prior, manifest, v.
  repeat (split; [assumption|]).
  apply setMapVal_loop_returns in Hset as Hindex.
  split; [apply Hindex|].
  intros other Hdiv. exact (setMapVal_loop_frame _ _ _ _ _ _ Hset Hdiv).
Qed.

(** X13. The HCL2 variant does not fall back on an empty manifest when the
    file does not parse: the invocation returns "Failed to parse output
    file" with the diagnostics. *)
Theorem hcl2_parse_error (p : Config) (env : Process) (source : SourceArtifact) (w : World)
    (customData : gmap string string) (contents : list byte) (err : option error) :
  interpolateCustomData (generatedData source) (map_to_list (CustomData p)) (CustomData p)
    = inl customData ->
  HasSuffix (OutputPath p) ".pkrvars.hcl" = true ->
  ioutil_ReadFile (OutputPath p) w = (contents, err) ->
  (forall e, err = Some e -> IsNotExist e = true) ->
  HasErrors (snd (hclparse_ParseHCL contents (OutputPath p))) = true ->
  fst (PostProcess p env source w)
  = Return (Some source, true, true,
            Some (Errorf "Failed to parse output file %s: %s"
                    [ArgString (OutputPath p);
                     ArgDiags (snd (hclparse_ParseHCL contents (OutputPath p)))])).
Proof.
  intros Hi Hs Hr He Hd.
  rewrite (PostProcess_read _ _ _ _ _ Hi). rewrite Hr.
  unfold withLockFile, lockFile.
  assert (Hm : forall w1,
    mergeWrite (setCustomData p customData) env source
      (map (artifactFile (setCustomData p customData) w) (Files source)) contents w1
    = (Return (Some source, true, true,
               Some (Errorf "Failed to parse output file %s: %s"
                       [ArgString (OutputPath p);
                        ArgDiags (snd (hclparse_ParseHCL contents (OutputPath p)))])), w1)).
  { intros w1. unfold mergeWrite, Hcl2Manifest.
    change (OutputPath (setCustomData p customData)) with (OutputPath p). rewrite Hs.
    destruct (hclparse_ParseHCL contents (OutputPath p)) as [file diags]. cbn [snd] in *.
    now rewrite Hd. }
  destruct err as [e|]; [rewrite (He e eq_refl); cbn [negb]|]; rewrite Hm; reflexivity.
Qed.

(** The copy loop panics on an attribute whose value has no tokens. *)
Lemma hcl2CopyAttributes_panics (attrs : list (string * Attribute cty_Value)) :
  forall (wBody : gmap string cty_Value) (key : string) (attr : Attribute cty_Value),
    (key, attr) ∈ attrs ->
    hclwrite_hasTokens (attributeValue attr) = false ->
    hcl2CopyAttributes attrs wBody = Panic "cannot produce tokens for value".
Proof.
  induction attrs as [|[k a] attrs IH]; intros wBody key attr Hin Htok.
  - now apply not_elem_of_nil in Hin.
  - cbn [hcl2CopyAttributes]. unfold SetAttributeValue.
    destruct (Value_nil (Expr a)) as [v d] eqn:Hv.
    destruct (hclwrite_hasTokens v) eqn:Hhas; [|reflexivity].
    apply elem_of_cons in Hin as [[= <- <-]|Hin].
    + unfold attributeValue in Htok. rewrite Hv in Htok. cbn in Htok. congruence.
    + exact (IH _ key attr Hin Htok).
Qed.

(** X14. When the file is parsed and the entry is placed, an attribute of
    the file whose value has no tokens, be it [manifest] itself, makes
    [Hcl2Manifest] panic, and nothing is written. *)
Theorem hcl2_untokenizable_attribute_panics (p : Config) (env : Process)
    (contents : list byte) (source : SourceArtifact) (aFiles : list ArtifactFile) (w : World)
    (prior manifest : gmap string Value) (key : string) (attr : Attribute cty_Value) :
  let file := fst (hclparse_ParseHCL contents (OutputPath p)) in
  HasErrors (snd (hclparse_ParseHCL contents (OutputPath p))) = false ->
  hcl2LoadManifest (fst (JustAttributes file)) = Return prior ->
  setMapVal prior (hcl2Entry p env source aFiles)
    [PackerBuildGroupName p; PackerBuilderType p; PackerBuildName p] = Return manifest ->
  fst (JustAttributes file) !! key = Some attr ->
  hclwrite_hasTokens (attributeValue attr) = false ->
  Hcl2Manifest p env contents source aFiles w = (Panic "cannot produce tokens for value", w).
Proof.
  intros file Hd Hload Hset Hattr Htok. unfold Hcl2Manifest. subst file.
  destruct (hclparse_ParseHCL contents (OutputPath p)) as [file diags]. cbn [fst snd] in *.
  rewrite Hd. unfold hcl2Body.
  destruct (JustAttributes file) as [attrs d]. cbn [fst] in *.
  rewrite Hload. cbn [mbind Outcome_bind]. rewrite Hset. cbn [mbind Outcome_bind].
  rewrite (hcl2CopyAttributes_panics _ _ key attr); [reflexivity| |exact Htok].
  now apply elem_of_map_to_list.
Qed.

End Hcl2Entry.

(** ** The custom data *)

Section CustomDataInterpolation.

Context {pkgs : Packages}.

(** The loop, on entries with distinct keys: the keys of the entries get
    their rendered value, the others keep theirs. *)
Lemma interpolateCustomData_entries (ctxData : Value) (entries : list (string * string)) :
  forall customData customData' : gmap string string,
    NoDup (fst <$> entries) ->
    interpolateCustomData ctxData entries customData = inl customData' ->
    forall key : string,
      inl <$> (customData' !! key)
      = match (list_to_map entries : gmap string string) !! key with
        | Some data => Some (interpolate_Render data ctxData)
        | None => inl <$> (customData !! key)
        end.
Proof.
  induction entries as [|[k data] entries IH]; intros customData customData' Hnd Hloop key.
  - injection Hloop as <-. cbn. now rewrite lookup_empty.
  - cbn in Hnd. pose proof (NoDup_cons_1_1 _ _ Hnd) as Hk. apply NoDup_cons_1_2 in Hnd.
    cbn [interpolateCustomData] in Hloop. unfold createInterpolatedCustomData in Hloop.
    destruct (interpolate_Render data ctxData) as [rendered|e] eqn:Hrender; [|discriminate].
    rewrite (IH _ _ Hnd Hloop key). cbn [list_to_map foldr uncurry fst snd].
    destruct (decide (k = key)) as [<-|Hne].
    + rewrite (not_elem_of_list_to_map_1 _ _ Hk). rewrite !lookup_insert_eq.
      cbn. now rewrite Hrender.
    + rewrite !lookup_insert_ne by exact Hne. reflexivity.
Qed.

(** The loop fails as soon as one value does not render. *)
Lemma interpolateCustomData_fails (ctxData : Value) (entries : list (string * string)) :
  forall (customData : gmap string string) (key data : string) (e : error),
    (key, data) ∈ entries ->
    interpolate_Render data ctxData = inr e ->
    exists e', interpolateCustomData ctxData entries customData
               = inr (Errorf "Error interpolating custom data: %s" [ArgError e']).
Proof.
  induction entries as [|[k d] entries IH]; intros customData key data e Hin Hrender.
  - now apply not_elem_of_nil in Hin.
  - cbn [interpolateCustomData]. unfold createInterpolatedCustomData.
    destruct (interpolate_Render d ctxData) as [rendered|e0] eqn:Hd; [|eauto].
    apply elem_of_cons in Hin as [[= <- <-]|Hin]; [congruence|].
    exact (IH _ key data e Hin Hrender).
Qed.

(** X15. When the interpolation of the custom data succeeds, the result has
    the keys of the configured custom data and no other, each with the
    rendering of its configured value. *)
Theorem interpolateCustomData_renders (ctxData : Value) (customData customData' : gmap string string) :
  interpolateCustomData ctxData (map_to_list customData) customData = inl customData' ->
  forall key : string,
    inl <$> (customData' !! key)
    = (fun data => interpolate_Render data ctxData) <$> (customData !! key).
Proof.
  intros Hloop key.
  rewrite (interpolateCustomData_entries _ _ _ _ (NoDup_fst_map_to_list customData) Hloop key).
  rewrite list_to_map_to_list. destruct (customData !! key); reflexivity.
Qed.

(** X16. When one value of the custom data does not render, the invocation
    returns the error "Error interpolating custom data" with no artifact and
    keep unset, before anything else: no lock is taken, no file is read or
    written, nothing is logged. *)
Theorem interpolation_failure_touches_nothing (p : Config) (env : Process)
    (source : SourceArtifact) (w : World) (key data : string) (e : error) :
  CustomData p !! key = Some data ->
  interpolate_Render data (generatedData source) = inr e ->
  exists e',
    PostProcess p env source w
    = (Return (None, false, false,
               Some (Errorf "Error interpolating custom data: %s" [ArgError e'])), w).
Proof.
  intros Hkey Hrender.
  destruct (interpolateCustomData_fails (generatedData source) (map_to_list (CustomData p))
              (CustomData p) key data e) as [e' He']; [|exact Hrender|].
  - now apply elem_of_map_to_list.
  - exists e'. unfold PostProcess. now rewrite He'.
Qed.

End CustomDataInterpolation.

(** ** The variant and the output path *)

Lemma substring_whole (s : string) : substring 0 (String.length s) s = s.
Proof. induction s as [|c s IH]; [reflexivity|]. cbn. now rewrite IH. Qed.

Lemma substring_app_suffix (prefix suffix : string) :
  substring (String.length prefix) (String.length suffix) (prefix +:+ suffix) = suffix.
Proof. induction prefix as [|c prefix IH]; cbn; [apply substring_whole | exact IH]. Qed.

Lemma substring_split (s : string) :
  forall n : nat, (n <= String.length s)%nat ->
    s = substring 0 n s +:+ substring n (String.length s - n) s.
Proof.
  induction s as [|c s IH]; intros n Hn.
  - destruct n; [reflexivity | cbn in Hn; lia].
  - destruct n as [|n].
    + cbn [substring String.append]. cbn [String.length Nat.sub].
      now rewrite substring_whole.
    + cbn in Hn.
      change (String c s
              = String c (substring 0 n s +:+ substring n (String.length s - n) s)).
      f_equal. apply IH. lia.
Qed.

(** X17. The variant is chosen by the end of the output path:
    [strings.HasSuffix] holds exactly of the strings that are some prefix
    followed by the suffix, so the HCL2 variables variant is taken exactly
    for the paths that end in .pkrvars.hcl. *)
Theorem HasSuffix_spec (s suffix : string) :
  HasSuffix s suffix = true <-> exists prefix, s = prefix +:+ suffix.
Proof.
  unfold HasSuffix. split.
  - intros Hs. apply andb_true_iff in Hs as [Hlen Heq].
    apply Nat.leb_le in Hlen. apply String.eqb_eq in Heq.
    exists (substring 0 (String.length s - String.length suffix) s).
    pose proof (substring_split s (String.length s - String.length suffix)) as Hsplit.
    replace (String.length s - (String.length s - String.length suffix))%nat
      with (String.length suffix) in Hsplit by lia.
    rewrite Heq in Hsplit. apply Hsplit. lia.
  - intros [prefix ->]. apply andb_true_iff. split.
    + apply Nat.leb_le. rewrite string_length_app. lia.
    + apply String.eqb_eq. rewrite string_length_app.
      replace (String.length prefix + String.length suffix - String.length suffix)%nat
        with (String.length prefix) by lia.
      apply substring_app_suffix.
Qed.

(** X18. After a successful [Configure] the output path is never empty and
    has passed the validation; when none was configured it is
    packer-manifest.json, which selects the JSON variant. *)
Theorem Configure_output_path {Raw : Type} (config_Decode : list Raw -> Config + error)
    (interpolate_Validate : string -> option error) (raws : list Raw) (config : Config) :
  Configure config_Decode interpolate_Validate raws = inl config ->
  OutputPath config ≠ EmptyString
  /\ interpolate_Validate (OutputPath config) = None
  /\ exists decoded,
       config_Decode raws = inl decoded
       /\ (OutputPath decoded ≠ EmptyString -> config = decoded)
       /\ (OutputPath decoded = EmptyString ->
           OutputPath config = "packer-manifest.json"
           /\ HasSuffix (OutputPath config) ".pkrvars.hcl" = false).
Proof.
  unfold Configure. intros Hc.
  destruct (config_Decode raws) as [decoded|err]; [|discriminate].
  destruct (decide (OutputPath decoded = EmptyString)) as [Hempty|Hset];
    destruct (interpolate_Validate _) eqn:Hv; try discriminate;
    injection Hc as <-.
  - split; [discriminate|]. split; [exact Hv|].
    exists decoded. split; [reflexivity|]. split; [congruence|]. intros _. split; reflexivity.
  - split; [exact Hset|]. split; [exact Hv|].
    exists decoded. split; [reflexivity|]. split; [reflexivity|]. congruence.
Qed.

(** ** More concrete runs *)

(** A file that is neither the manifest nor the lock file is left alone. *)
Lemma PostProcess_footprint_witness :
  fs (snd (PostProcess (pkgs := Sample.packages) (Sample.config "m.json" false)
             (Sample.process "R2") Sample.source Runs.otherFileWorld)) !! "a.txt"
  = fs Runs.otherFileWorld !! "a.txt".
Proof.
  apply (PostProcess_footprint (pkgs := Sample.packages) (Sample.config "m.json" false)
           (Sample.process "R2") Sample.source Runs.otherFileWorld "a.txt");
    intros Heq; vm_compute in Heq; discriminate Heq.
Defined.

(** A run that returns a parse error still returns the artifact, to be kept. *)
Lemma PostProcess_keeps_artifact_witness :
  exists err,
    (Some Sample.source, true, true,
     Some (Errorf "Unable to parse content from %s: %s"
             [ArgString "m.json";
              ArgError (LibraryError "invalid character looking for beginning of value")]))
    = (Some Sample.source, true, true, err).
Proof.
  eapply (PostProcess_keeps_artifact (pkgs := Sample.packages) (Sample.config "m.json" false)
            (Sample.process "R2") Sample.source Sample.garbageWorld _ ∅);
    [reflexivity | vm_compute; reflexivity].
Defined.

(** A run that fails to parse the manifest leaves it as it was. *)
Lemma run_ending_before_write_leaves_manifest_witness :
  endsBeforeWrite
    (fst (PostProcess (pkgs := Sample.packages) (Sample.config "m.json" false)
            (Sample.process "R2") Sample.source Sample.garbageWorld)) = true
  /\ fs (snd (PostProcess (pkgs := Sample.packages) (Sample.config "m.json" false)
                (Sample.process "R2") Sample.source Sample.garbageWorld)) !! "m.json"
     = fs Sample.garbageWorld !! "m.json".
Proof.
  split; [reflexivity|].
  apply (run_ending_before_write_leaves_manifest (pkgs := Sample.packages)
           (Sample.config "m.json" false) (Sample.process "R2") Sample.source
           Sample.garbageWorld).
  reflexivity.
Defined.


(** No lock file at the start: one sleep of length 0 and one open. *)
Lemma free_lock_first_attempt_witness :
  trace (snd (PostProcess (pkgs := Sample.packages) (Sample.config "m.json" false)
                (Sample.process "R2") Sample.source Sample.priorWorld))
  = [EvSleep 0; EvOpenFile "m.json.lock" None].
Proof.
  apply (free_lock_first_attempt (pkgs := Sample.packages) (Sample.config "m.json" false)
           (Sample.process "R2") Sample.source Sample.priorWorld ∅);
    reflexivity.
Defined.

(** The first run creates the manifest. *)
Lemma first_write_creates_manifest_witness :
  fst (PostProcess (pkgs := Sample.packages) (Sample.config "m.json" false)
         (Sample.process "R2") Sample.source (Sample.world ∅))
  = Return (Some Sample.source, true, true, None)
  /\ data <$> (fs (snd (PostProcess (pkgs := Sample.packages) (Sample.config "m.json" false)
                          (Sample.process "R2") Sample.source (Sample.world ∅)))
               !! "m.json")
     = Some ["{"%byte; "b"%byte]
  /\ fs (snd (PostProcess (pkgs := Sample.packages) (Sample.config "m.json" false)
                (Sample.process "R2") Sample.source (Sample.world ∅))) !! "m.json.lock"
     = None.
Proof.
  apply (first_write_creates_manifest (pkgs := Sample.packages) (Sample.config "m.json" false)
           (Sample.process "R2") Sample.source (Sample.world ∅) ∅ ["{"%byte; "b"%byte]);
    reflexivity.
Defined.

(** A manifest that can be read and not written: "Unable to write". *)
Lemma write_errors_witness :
  canWrite {| mode := 4 * 64; data := ["{"%byte] |} = false
  /\ fst (PostProcess (pkgs := Sample.packages) (Sample.config "m.json" false)
            (Sample.process "R2") Sample.source Runs.readOnlyWorld)
     = Return (Some Sample.source, true, true,
               Some (Errorf "Unable to write %s: %s"
                       [ArgString "m.json"; ArgError (PathError "open" "m.json" EACCES)])).
Proof.
  split; [reflexivity|].
  apply (write_errors (pkgs := Sample.packages) (Sample.config "m.json" false)
           (Sample.process "R2") Sample.source Runs.readOnlyWorld ∅
           {| mode := 4 * 64; data := ["{"%byte] |} Sample.prior
           eq_refl eq_refl eq_refl eq_refl eq_refl)
    with (out := ["{"%byte; "b"%byte; "b"%byte]); reflexivity.
Defined.

(** Two runs of ["R1"] on a path without manifest: the second writes both
    builds, in the order of the runs. *)
Lemma second_run_appends_witness :
  PostProcess (pkgs := Sample.packages) (Sample.config "m.json" false) (Sample.process "R1")
    Sample.source
    (snd (PostProcess (pkgs := Sample.packages) Runs.firstConfig Runs.firstProcess
            Runs.firstSource (Sample.world ∅)))
  = withLockFile "m.json.lock"
      (writeManifest (pkgs := Sample.packages) (Sample.config "m.json" false) Sample.source
         {| Builds := Builds Sample.prior ++ [Sample.record "R1"]; LastRunUUID := "R1" |})
      (snd (PostProcess (pkgs := Sample.packages) Runs.firstConfig Runs.firstProcess
              Runs.firstSource (Sample.world ∅))).
Proof.
  destruct (second_run_appends (pkgs := Sample.packages) Runs.firstConfig
              (Sample.config "m.json" false) Runs.firstProcess (Sample.process "R1")
              Runs.firstSource Sample.source (Sample.world ∅) ∅ ∅ ["{"%byte; "b"%byte])
    as [Hrun Hmerge]; [first [reflexivity | discriminate] ..|].
  rewrite Hrun. rewrite Hmerge by (left; reflexivity). reflexivity.
Defined.

(** A second build of the same group and type: its entry is placed and the
    entry of the other build is kept. *)
Lemma setMapVal_places_and_keeps_witness :
  exists target',
    setMapVal Runs.otherBuild Runs.secondEntry ["group"; "type"; "name"] = Return target'
    /\ index (VMap target') ["group"; "type"; "name"] = Some (VMap Runs.secondEntry)
    /\ index (VMap target') ["group"; "type"; "other"]
       = index (VMap Runs.otherBuild) ["group"; "type"; "other"].
Proof.
  eexists. split; [reflexivity|].
  split.
  - eapply (setMapVal_places_and_keeps Runs.otherBuild Runs.secondEntry _
              ["group"; "type"; "name"]).
    reflexivity.
  - eapply (setMapVal_places_and_keeps Runs.otherBuild Runs.secondEntry _
              ["group"; "type"; "name"]); reflexivity.
Defined.

(** The same build recorded twice: the second entry alone remains. *)
Lemma setMapVal_last_write_wins_witness :
  exists target1,
    setMapVal ∅ Sample.entry ["group"; "type"; "name"] = Return target1
    /\ setMapVal target1 Runs.secondEntry ["group"; "type"; "name"]
       = setMapVal ∅ Runs.secondEntry ["group"; "type"; "name"].
Proof.
  eexists. split; [reflexivity|].
  eapply (setMapVal_last_write_wins ∅ Sample.entry Runs.secondEntry _
            ["group"; "type"; "name"]).
  reflexivity.
Defined.

(** A file with [region = "eu"] and no manifest: the entry of the build is
    written under group, type and name. *)
Lemma hcl2_entry_written_witness :
  exists (wBody : gmap string Sample.cty) (out : list byte)
         (prior manifest : gmap string Value) (v : Sample.cty),
    hclwrite_WriteTo (Packages := Sample.packages) wBody = (out, None)
    /\ data <$> (fs (snd (Hcl2Manifest (pkgs := Sample.packages)
                            (Sample.config "m.pkrvars.hcl" false) (Sample.process "R2")
                            ["r"%byte] Sample.source [] Sample.regionWorld))
                 !! "m.pkrvars.hcl") = Some out
    /\ wBody !! "manifest" = Some v
    /\ HCL2ValueFromConfigValue (Packages := Sample.packages) (VMap manifest) = Some v
    /\ hcl2LoadManifest (pkgs := Sample.packages)
         (fst (JustAttributes (fst (Sample.parse ["r"%byte] "m.pkrvars.hcl")))) = Return prior
    /\ index (VMap manifest) ["group"; "type"; "name"] = Some (VMap Sample.entry)
    /\ forall other : list string,
         diverge ["group"; "type"; "name"] other = true ->
         index (VMap manifest) other = index (VMap prior) other.
Proof.
  eapply (hcl2_entry_written (pkgs := Sample.packages) (Sample.config "m.pkrvars.hcl" false)
            (Sample.process "R2") ["r"%byte] Sample.source [] Sample.regionWorld _
            (Some Sample.source) true true).
  vm_compute. reflexivity.
Defined.

(** A file with a syntax error: the parse error is returned. *)
Lemma hcl2_parse_error_witness :
  fst (PostProcess (pkgs := Sample.packages) (Sample.config "m.pkrvars.hcl" false)
         (Sample.process "R2") Sample.source Runs.syntaxErrorWorld)
  = Return (Some Sample.source, true, true,
            Some (Errorf "Failed to parse output file %s: %s"
                    [ArgString "m.pkrvars.hcl";
                     ArgDiags [{| Severity := DiagError; Summary := "Invalid character" |}]])).
Proof.
  apply (hcl2_parse_error (pkgs := Sample.packages) (Sample.config "m.pkrvars.hcl" false)
           (Sample.process "R2") Sample.source Runs.syntaxErrorWorld ∅ ["?"%byte] None);
    first [reflexivity | discriminate].
Defined.

(** A file with [manifest = var.m]: the evaluation reports an error, the
    empty mapping is used, and the copy of the attribute panics. *)
Lemma hcl2_untokenizable_attribute_panics_witness :
  hcl2LoadManifest (pkgs := Sample.packages)
    (fst (JustAttributes (fst (Sample.parse ["v"%byte] "m.pkrvars.hcl")))) = Return ∅
  /\ Hcl2Manifest (pkgs := Sample.packages) (Sample.config "m.pkrvars.hcl" false)
       (Sample.process "R2") ["v"%byte] Sample.source [] (Sample.world ∅)
     = (Panic "cannot produce tokens for value", Sample.world ∅).
Proof.
  split; [reflexivity|].
  eapply (hcl2_untokenizable_attribute_panics (pkgs := Sample.packages)
            (Sample.config "m.pkrvars.hcl" false) (Sample.process "R2") ["v"%byte]
            Sample.source [] (Sample.world ∅) ∅ _ "manifest" Sample.reference);
    reflexivity.
Defined.

(** Custom data that render: each key has its rendered value. *)
Lemma interpolateCustomData_renders_witness :
  inl <$> (CustomData Runs.goodTemplateConfig !! "owner")
  = (fun data => interpolate_Render (Packages := Sample.packages) data (VMap ∅))
      <$> (CustomData Runs.goodTemplateConfig !! "owner").
Proof.
  apply (interpolateCustomData_renders (pkgs := Sample.packages) (VMap ∅)
           (CustomData Runs.goodTemplateConfig) (CustomData Runs.goodTemplateConfig)).
  vm_compute. reflexivity.
Defined.

(** A value that does not render: the invocation stops at once. *)
Lemma interpolation_failure_touches_nothing_witness :
  exists e',
    PostProcess (pkgs := Runs.strictPackages) Runs.badTemplateConfig (Sample.process "R2")
      Sample.source Sample.heldWorld
    = (Return (None, false, false,
               Some (Errorf "Error interpolating custom data: %s" [ArgError e'])),
       Sample.heldWorld).
Proof.
  apply (interpolation_failure_touches_nothing (pkgs := Runs.strictPackages)
           Runs.badTemplateConfig (Sample.process "R2") Sample.source Sample.heldWorld
           "owner" "{{" (LibraryError "unexpected unclosed action"));
    reflexivity.
Defined.

(** No output path configured: packer-manifest.json, the JSON variant. *)
Lemma Configure_output_path_witness :
  OutputPath (Sample.config "packer-manifest.json" false) ≠ EmptyString
  /\ None = (None : option error)
  /\ exists decoded,
       Runs.decodeOutput [EmptyString] = inl decoded
       /\ (OutputPath decoded ≠ EmptyString ->
           Sample.config "packer-manifest.json" false = decoded)
       /\ (OutputPath decoded = EmptyString ->
           OutputPath (Sample.config "packer-manifest.json" false) = "packer-manifest.json"
           /\ HasSuffix (OutputPath (Sample.config "packer-manifest.json" false))
                ".pkrvars.hcl" = false).
Proof.
  apply (Configure_output_path Runs.decodeOutput (fun _ => None) [EmptyString]
           (Sample.config "packer-manifest.json" false)).
  reflexivity.
Defined.
